(** * MES design-pattern snippets: decorator chain and observer registry

    A shallow embedding of
    - [design_pattern/behavioral_patterns/decorator_pattern/main.py]
      (the [require_permission] and [sync_to_erp] decorators stacked on
      [report_production]), and
    - [design_pattern/behavioral_patterns/observer_pattern/main.py]
      (the [Observable] registry and the [Machine] subject),
    followed by the properties of the two components.

    Python effects are written out: a call is a function from the program
    state to an outcome (a value or a raised exception) and the state it
    leaves behind.  What a function prints is kept as a list of structured
    lines, one constructor per [print] statement of the source. *)

From Stdlib Require Import List String ZArith Bool Arith Lia.
Import ListNotations.
Open Scope string_scope.
Open Scope list_scope.

(** ** Outcomes of Python calls *)

Inductive Exn : Type :=
| TypeError
| KeyError (key : string)
| AttributeError
| NotImplementedError.

Inductive outcome (A : Type) : Type :=
| Ok (a : A)
| Raise (e : Exn).
Arguments Ok {A} a.
Arguments Raise {A} e.

(** A computation over a state [S]: the outcome and the state left behind.
    State changes made before an exception is raised are kept, as in Python. *)
Definition M (S A : Type) : Type := S -> outcome A * S.

Definition ret {S A : Type} (a : A) : M S A := fun s => (Ok a, s).

Definition throw {S A : Type} (e : Exn) : M S A := fun s => (Raise e, s).

Definition bind {S A B : Type} (m : M S A) (k : A -> M S B) : M S B :=
  fun s =>
    match m s with
    | (Ok a, s') => k a s'
    | (Raise e, s') => (Raise e, s')
    end.

Definition lift {S A : Type} (o : outcome A) : M S A := fun s => (o, s).

Declare Scope py_scope.
Delimit Scope py_scope with py.
Notation "x <- m ;; k" := (bind m (fun x => k))
  (at level 61, m at next level, right associativity) : py_scope.
Notation "m ;;; k" := (bind m (fun _ => k))
  (at level 61, right associativity) : py_scope.

(** ** The decorator chain *)

Module Decorator.

(** [class UserRole(IntEnum)] *)
Inductive UserRole : Type := GUEST | OPERATOR | ADMIN.

Definition UserRole_value (r : UserRole) : Z :=
  match r with
  | GUEST => 1
  | OPERATOR => 2
  | ADMIN => 3
  end%Z.

(** The Python values the snippet handles: [None], integers, strings,
    members of [UserRole] and dictionaries with string keys (kept in
    insertion order). *)
#[warnings="-register-all"]
Inductive PyVal : Type :=
| VNone
| VInt (z : Z)
| VStr (s : string)
| VRole (r : UserRole)
| VDict (items : list (string * PyVal)).

(** [d.get(key)] on the items of a dictionary. *)
Fixpoint dict_find (items : list (string * PyVal)) (key : string) : option PyVal :=
  match items with
  | [] => None
  | (k, v) :: rest => if String.eqb k key then Some v else dict_find rest key
  end.

(** [d.get(key, default)] *)
Definition dict_get (items : list (string * PyVal)) (key : string) (default : PyVal) : PyVal :=
  match dict_find items key with
  | Some v => v
  | None => default
  end.

(** An [IntEnum] member is an [int]: both compare as integers. *)
Definition as_int (v : PyVal) : option Z :=
  match v with
  | VInt z => Some z
  | VRole r => Some (UserRole_value r)
  | _ => None
  end.

(** [a <= b].  Integers (and [IntEnum] members) compare by value, strings
    compare with strings; every other pairing has no ordering and raises
    [TypeError]. *)
Definition py_le (a b : PyVal) : outcome bool :=
  match as_int a, as_int b with
  | Some x, Some y => Ok (x <=? y)%Z
  | _, _ =>
      match a, b with
      | VStr x, VStr y => Ok (String.leb x y)
      | _, _ => Raise TypeError
      end
  end.

(** Truth value of [if v:]. *)
Definition truthy (v : PyVal) : bool :=
  match v with
  | VNone => false
  | VInt z => negb (z =? 0)%Z
  | VStr s => negb (String.eqb s "")
  | VRole r => negb (UserRole_value r =? 0)%Z
  | VDict items => match items with [] => false | _ :: _ => true end
  end.

(** [v[key]] for a string key: a dictionary looks the key up ([KeyError]
    when it is missing); the other values cannot be indexed by a string. *)
Definition subscript (v : PyVal) (key : string) : outcome PyVal :=
  match v with
  | VDict items =>
      match dict_find items key with
      | Some x => Ok x
      | None => Raise (KeyError key)
      end
  | _ => Raise TypeError
  end.

(** One constructor per [print] statement of the module. *)
Inductive Line : Type :=
| PermissionDenied (user_role : PyVal) (func_name : string)
| ErpSync (order_id : PyVal)
| ErpSyncTime (now : Z)
| MesReport (order_id quantity : PyVal).

(** Program state: what has been printed, and the wall clock that
    [datetime.datetime.now()] reads. *)
Record Console : Type := mkConsole {
  stdout : list Line;
  clock : Z
}.

Definition print (l : Line) : M Console unit :=
  fun c => (Ok tt, mkConsole (stdout c ++ [l]) (clock c)).

Definition datetime_now : M Console Z :=
  fun c => (Ok (clock c), c).

(** A Python callable taking [*args, **kwargs], with its [__name__]. *)
Record PyFunc : Type := mkPyFunc {
  __name__ : string;
  call : list PyVal -> list (string * PyVal) -> M Console PyVal
}.

(** [functools.wraps(func)(wrapper)]: the wrapper takes over the wrapped
    function's name. *)
Definition wraps (func : PyFunc)
  (wrapper : list PyVal -> list (string * PyVal) -> M Console PyVal) : PyFunc :=
  mkPyFunc (__name__ func) wrapper.

(** [require_permission(role)(func)] *)
Definition require_permission (role : PyVal) (func : PyFunc) : PyFunc :=
  wraps func (fun args kwargs =>
    let user_role := dict_get kwargs "user_role" (VStr "Guest") in
    (denied <- lift (py_le user_role role) ;;
     if denied then
       print (PermissionDenied user_role (__name__ func)) ;;;
       ret VNone
     else
       call func args kwargs)%py).

(** [sync_to_erp(func)] *)
Definition sync_to_erp (func : PyFunc) : PyFunc :=
  wraps func (fun args kwargs =>
    (result <- call func args kwargs ;;
     (if truthy result then
        order_id <- lift (subscript result "order_id") ;;
        print (ErpSync order_id) ;;;
        now <- datetime_now ;;
        print (ErpSyncTime now)
      else ret tt) ;;;
     ret result)%py).

(** Binding of a call's arguments to named parameters without defaults:
    too many positional arguments, an unknown keyword, a parameter given
    twice or a parameter left out raise [TypeError]. *)
Fixpoint bind_params (names : list string) (args : list PyVal)
  (kwargs : list (string * PyVal)) : option (list PyVal) :=
  match names with
  | [] => match args with [] => Some [] | _ :: _ => None end
  | n :: names' =>
      match args with
      | a :: args' =>
          match dict_find kwargs n with
          | Some _ => None
          | None =>
              match bind_params names' args' kwargs with
              | Some vs => Some (a :: vs)
              | None => None
              end
          end
      | [] =>
          match dict_find kwargs n with
          | Some v =>
              match bind_params names' [] kwargs with
              | Some vs => Some (v :: vs)
              | None => None
              end
          | None => None
          end
      end
  end.

Definition known_keywords (names : list string) (kwargs : list (string * PyVal)) : bool :=
  forallb (fun kv => existsb (String.eqb (fst kv)) names) kwargs.

(** The undecorated [report_production(order_id, quantity, user_role)]. *)
Definition report_production_def : PyFunc :=
  mkPyFunc "report_production" (fun args kwargs =>
    let names := ["order_id"; "quantity"; "user_role"] in
    match (if known_keywords names kwargs then bind_params names args kwargs else None) with
    | Some [order_id; quantity; _] =>
        (print (MesReport order_id quantity) ;;;
         ret (VDict [("order_id", order_id); ("status", VStr "completed")]))%py
    | _ => throw TypeError
    end).

(** The module-level name [report_production]:
    [@require_permission(role=UserRole.OPERATOR) @sync_to_erp def ...]. *)
Definition report_production : PyFunc :=
  require_permission (VRole OPERATOR) (sync_to_erp report_production_def).

(** The same stack with another required role. *)
Definition guarded_report (role : UserRole) : PyFunc :=
  require_permission (VRole role) (sync_to_erp report_production_def).

(** How often the terminal operation ran, and how often the ERP
    synchronisation fired, read off the printed lines. *)
Definition is_report (l : Line) : bool :=
  match l with MesReport _ _ => true | _ => false end.

Definition is_sync (l : Line) : bool :=
  match l with ErpSync _ => true | _ => false end.

Definition is_denial (l : Line) : bool :=
  match l with PermissionDenied _ _ => true | _ => false end.

Definition count_lines (p : Line -> bool) (out : list Line) : nat :=
  List.length (filter p out).

(** [main()] of the module: both calls, their results dropped. *)
Definition main : M Console unit :=
  (call report_production [VStr "ORD-001"; VInt 100] [("user_role", VRole GUEST)] ;;;
   call report_production [VStr "ORD-002"; VInt 500] [("user_role", VRole ADMIN)] ;;;
   ret tt)%py.

(** *** Vocabulary of the properties *)

(** The state after printing further lines. *)
Definition printed (c : Console) (ls : list Line) : Console :=
  mkConsole (stdout c ++ ls) (clock c).

(** A call of the module's [report_production] as [main] makes them:
    two positional arguments and the caller's role by keyword. *)
Definition run_report (caller : UserRole) (order_id quantity : PyVal) (c : Console)
  : outcome PyVal * Console :=
  call report_production [order_id; quantity] [("user_role", VRole caller)] c.

(** The claim as the specification words it: for every terminal result,
    empty or not, the stage hands the result up unchanged, and the
    synchronisation fires exactly when the result is non-empty. *)
Definition sync_stage_as_specified : Prop :=
  forall (func : PyFunc) (args : list PyVal) (kwargs : list (string * PyVal))
         (c c1 : Console) (v : PyVal),
    call func args kwargs c = (Ok v, c1) ->
    fst (call (sync_to_erp func) args kwargs c) = Ok v
    /\ count_lines is_sync (stdout (snd (call (sync_to_erp func) args kwargs c)))
       = count_lines is_sync (stdout c1) + (if truthy v then 1 else 0).

(** A terminal whose record is populated but has no ["order_id"] entry. *)
Definition status_only : PyFunc :=
  mkPyFunc "status_only" (fun _ _ => ret (VDict [("status", VStr "completed")])).

(** A terminal returning the record of the specification's example, and
    one returning nothing. *)
Definition completed_ord_002 : PyFunc :=
  mkPyFunc "completed_ord_002" (fun _ _ =>
    ret (VDict [("order_id", VStr "ORD-002"); ("status", VStr "completed")])).

Definition returns_none : PyFunc :=
  mkPyFunc "returns_none" (fun _ _ => ret VNone).

(** A value carries a reason when it is a string, or a record with a
    string among its entries. *)
Definition carries_reason (v : PyVal) : Prop :=
  exists s : string,
    v = VStr s
    \/ exists items key, v = VDict items /\ dict_find items key = Some (VStr s).

(** The claim as the specification words it: whenever the guard refuses
    ([user_role <= role] holds), the wrapper returns a value that carries
    the reason. *)
Definition refusal_as_specified : Prop :=
  forall (role user_role : PyVal) (func : PyFunc) (args : list PyVal)
         (kwargs : list (string * PyVal)) (c : Console),
    dict_find kwargs "user_role" = Some user_role ->
    py_le user_role role = Ok true ->
    exists v, fst (call (require_permission role func) args kwargs c) = Ok v
              /\ carries_reason v.

(** The greater of two roles, by value. *)
Definition UserRole_max (a b : UserRole) : UserRole :=
  if (UserRole_value a <=? UserRole_value b)%Z then b else a.

End Decorator.

(** ** The observer registry *)

Module Registry.

(** [class Status(Enum)] and the [.value] of its members. *)
Inductive Status : Type := IDLE | RUNNING | FAULT.

Definition Status_value (s : Status) : string :=
  match s with
  | IDLE => "idle"
  | RUNNING => "running"
  | FAULT => "fault"
  end.

Definition Status_eqb (a b : Status) : bool :=
  match a, b with
  | IDLE, IDLE | RUNNING, RUNNING | FAULT, FAULT => true
  | _, _ => false
  end.

(** One constructor per [print] statement of the module. *)
Inductive Line : Type :=
| MaintenanceAlert (machine_id : string)
| DashboardUpdate (machine_id : string) (status_value : string)
| StatusChange (machine_id : string) (status_value : string).

Section Subject.

(** Python object references, compared by identity, and whatever program
    state the observers keep besides the machine. *)
Variable Obj : Type.
Variable Env : Type.

(** [@dataclass class Machine(Observable)]: the inherited [_observers]
    list and the two fields of its own. *)
Record Machine : Type := mkMachine {
  _observers : list Obj;
  machine_id : string;
  _status : Status
}.

(** Program state: the machine object (shared by everybody who holds a
    reference to it), the printed lines and the rest of the heap. *)
Record World : Type := mkWorld {
  machine : Machine;
  stdout : list Line;
  env : Env
}.

Definition print (l : Line) : M World unit :=
  fun w => (Ok tt, mkWorld (machine w) (stdout w ++ [l]) (env w)).

Definition set_observers (l : list Obj) : M World unit :=
  fun w =>
    (Ok tt,
     mkWorld (mkMachine l (machine_id (machine w)) (_status (machine w)))
       (stdout w) (env w)).

Definition assign_status (s : Status) : M World unit :=
  fun w =>
    (Ok tt,
     mkWorld (mkMachine (_observers (machine w)) (machine_id (machine w)) s)
       (stdout w) (env w)).

Variable Obj_eq_dec : forall a b : Obj, {a = b} + {a <> b}.

(** [isinstance(o, Observer)] *)
Variable isinstance_Observer : Obj -> bool.

(** [observer.update(machine_id, status)], dispatched on the object. *)
Variable update : Obj -> string -> Status -> M World unit.

(** [x in l] *)
Fixpoint contains (l : list Obj) (x : Obj) : bool :=
  match l with
  | [] => false
  | y :: rest => if Obj_eq_dec y x then true else contains rest x
  end.

(** [l.remove(x)]: the first occurrence goes. *)
Fixpoint list_remove (l : list Obj) (x : Obj) : list Obj :=
  match l with
  | [] => []
  | y :: rest => if Obj_eq_dec y x then rest else y :: list_remove rest x
  end.

(** [Observable.register_observer] *)
Definition register_observer (observer : Obj) : M World bool :=
  fun w =>
    if negb (isinstance_Observer observer) then (Ok false, w)
    else
      (set_observers (_observers (machine w) ++ [observer]) ;;;
       ret true)%py w.

(** [Observable.remove_observer] *)
Definition remove_observer (observer : Obj) : M World bool :=
  fun w =>
    if negb (contains (_observers (machine w)) observer) then (Ok false, w)
    else
      (set_observers (list_remove (_observers (machine w)) observer) ;;;
       ret true)%py w.

(** [Observer.subscribe] and [Observer.unsubscribe], called with the
    machine: the registry's answer is dropped and [True] returned. *)
Definition subscribe (self : Obj) : M World bool :=
  (register_observer self ;;; ret true)%py.

Definition unsubscribe (self : Obj) : M World bool :=
  (remove_observer self ;;; ret true)%py.

(** What a caller hands to [Observer.subscribe] / [Observer.unsubscribe]
    as [observable]: the machine, or an object that is no [Observable]. *)
Inductive ObservableArg : Type :=
| TheMachine
| NotObservable.

(** [Observer.subscribe] and [Observer.unsubscribe] with their
    [isinstance(observable, Observable)] test. *)
Definition Observer_subscribe (self : Obj) (observable : ObservableArg) : M World bool :=
  match observable with
  | NotObservable => ret false
  | TheMachine => subscribe self
  end.

Definition Observer_unsubscribe (self : Obj) (observable : ObservableArg) : M World bool :=
  match observable with
  | NotObservable => ret false
  | TheMachine => unsubscribe self
  end.

(** One [update] call made by a broadcast: receiver and arguments. *)
Definition Delivery : Type := (Obj * string * Status)%type.

Definition receiver (d : Delivery) : Obj := fst (fst d).

(** The [for observer in self._observers] loop of [notify_observers].
    The list iterator keeps an index into the live list: each round reads
    [self._observers[i]] as the list is then, and stops once [i] is past
    its end.  [self.machine_id] and [self._status] are read at each round.
    An [update] may grow the list for ever, so the loop runs on fuel:
    [None] means the fuel ran out.  Besides the outcome, the deliveries
    made are returned in order. *)
Fixpoint notify_from (fuel i : nat) (w : World)
  : option (list Delivery * (outcome unit * World)) :=
  match fuel with
  | O => None
  | S fuel' =>
      match nth_error (_observers (machine w)) i with
      | None => Some ([], (Ok tt, w))
      | Some observer =>
          let d := (observer, machine_id (machine w), _status (machine w)) in
          match update observer (machine_id (machine w)) (_status (machine w)) w with
          | (Ok _, w') =>
              match notify_from fuel' (S i) w' with
              | Some (ds, r) => Some (d :: ds, r)
              | None => None
              end
          | (Raise e, w') => Some ([d], (Raise e, w'))
          end
      end
  end.

(** [Machine.notify_observers] *)
Definition notify_observers (fuel : nat) (w : World)
  : option (list Delivery * (outcome unit * World)) :=
  notify_from fuel 0 w.

(** [Machine.set_status] *)
Definition set_status (fuel : nat) (status : Status) (w : World)
  : option (list Delivery * (outcome unit * World)) :=
  match (print (StatusChange (machine_id (machine w)) (Status_value status)) ;;;
         assign_status status)%py w with
  | (Ok _, w') => notify_observers fuel w'
  | (Raise e, w') => Some ([], (Raise e, w'))
  end.

(** An observer whose [update] returns normally and leaves the machine
    object alone (it may print and change state of its own). *)
Definition quiet (o : Obj) : Prop :=
  forall mid st w, exists w',
    update o mid st w = (Ok tt, w') /\ machine w' = machine w.

(** The state in which [set_status] starts its broadcast. *)
Definition committed (w : World) (status : Status) : World :=
  mkWorld (mkMachine (_observers (machine w)) (machine_id (machine w)) status)
    (stdout w ++ [StatusChange (machine_id (machine w)) (Status_value status)])
    (env w).

(** The state after [register_observer] appended [o]. *)
Definition appended (w : World) (o : Obj) : World :=
  mkWorld (mkMachine (_observers (machine w) ++ [o]) (machine_id (machine w))
             (_status (machine w)))
    (stdout w) (env w).

(** The state with another list of observers. *)
Definition with_observers (w : World) (l : list Obj) : World :=
  mkWorld (mkMachine l (machine_id (machine w)) (_status (machine w)))
    (stdout w) (env w).

(** Calling [update(mid, st)] on each observer of a fixed list [l], one
    after the other, each on the state the one before left; an exception
    ends the sequence.  This is what a broadcast over a snapshot of the
    list would do; the loop of [notify_observers] is compared with it. *)
Fixpoint snapshot_broadcast (l : list Obj) (mid : string) (st : Status) (w : World)
  : outcome unit * World :=
  match l with
  | [] => (Ok tt, w)
  | o :: rest =>
      match update o mid st w with
      | (Ok _, w') => snapshot_broadcast rest mid st w'
      | (Raise e, w') => (Raise e, w')
      end
  end.

(** The deliveries of a broadcast that reaches the observers [l], in
    order, while the machine is [m]. *)
Definition deliveries_to (m : Machine) (l : list Obj) : list Delivery :=
  map (fun o => (o, machine_id m, _status m)) l.

(** How many of the deliveries went to [o]. *)
Definition received (ds : list Delivery) (o : Obj) : nat :=
  count_occ Obj_eq_dec (map receiver ds) o.

(** Registry calls made by the driver between broadcasts. *)
Inductive RegistryCall : Type :=
| CallRegister (o : Obj)
| CallRemove (o : Obj).

Definition run_call (c : RegistryCall) (w : World) : World :=
  match c with
  | CallRegister o => snd (register_observer o w)
  | CallRemove o => snd (remove_observer o w)
  end.

Definition run_calls (cs : list RegistryCall) (w : World) : World :=
  fold_left (fun w c => run_call c w) cs w.

End Subject.

Arguments mkMachine {Obj} _ _ _.
Arguments _observers {Obj} _.
Arguments machine_id {Obj} _.
Arguments _status {Obj} _.
Arguments mkWorld {Obj Env} _ _ _.
Arguments machine {Obj Env} _.
Arguments stdout {Obj Env} _.
Arguments env {Obj Env} _.
Arguments print {Obj Env} _ _.
Arguments set_observers {Obj Env} _ _.
Arguments assign_status {Obj Env} _ _.
Arguments contains {Obj} _ _ _.
Arguments list_remove {Obj} _ _ _.
Arguments register_observer {Obj Env} _ _ _.
Arguments remove_observer {Obj Env} _ _ _.
Arguments subscribe {Obj Env} _ _ _.
Arguments Observer_subscribe {Obj Env} _ _ _ _.
Arguments Observer_unsubscribe {Obj Env} _ _ _ _.
Arguments unsubscribe {Obj Env} _ _ _.
Arguments receiver {Obj} _.
Arguments notify_from {Obj Env} _ _ _ _.
Arguments notify_observers {Obj Env} _ _ _.
Arguments set_status {Obj Env} _ _ _ _.
Arguments quiet {Obj Env} _ _.
Arguments committed {Obj Env} _ _.
Arguments appended {Obj Env} _ _.
Arguments with_observers {Obj Env} _ _.
Arguments snapshot_broadcast {Obj Env} _ _ _ _ _.
Arguments deliveries_to {Obj} _ _.
Arguments received {Obj} _ _ _.
Arguments CallRegister {Obj} _.
Arguments CallRemove {Obj} _.
Arguments run_call {Obj Env} _ _ _ _.
Arguments run_calls {Obj Env} _ _ _ _.

End Registry.

(** ** A shop floor: the observer classes of the module and a few more

    [MaintenanceEngineer] and [ProductionDashboard] are the two observer
    classes of the source.  The others are classes a client of the module
    can write against its interfaces; they exercise the paths of the
    registry that the two shipped classes never take. *)

Module Plant.
Import Registry.

(** Objects, each with the identity it was created with. *)
Inductive Obj : Type :=
| MaintenanceEngineer (id : nat)
| ProductionDashboard (id : nat)
| Unimplemented (id : nat)
| Leaver (id : nat)
| Joiner (id : nat)
| Stranger (id : nat).

Definition Obj_eq_dec (a b : Obj) : {a = b} + {a <> b}.
Proof. decide equality; apply Nat.eq_dec. Defined.

(** Every class but [Stranger] derives from [Observer]. *)
Definition isinstance_Observer (o : Obj) : bool :=
  match o with
  | Stranger _ => false
  | _ => true
  end.

Definition World : Type := Registry.World Obj unit.

(** [update] of each class.
    - [MaintenanceEngineer] and [ProductionDashboard]: as in the source.
    - [Unimplemented]: its [update] defers to [Observer.update], whose
      body is [raise NotImplementedError].
    - [Leaver]: its [update] calls [self.unsubscribe(machine)].
    - [Joiner]: its [update] calls [self.subscribe(machine)].
    - [Stranger]: has no [update] attribute. *)
Definition update (o : Obj) (machine_id : string) (status : Status) : M World unit :=
  match o with
  | MaintenanceEngineer _ =>
      if Status_eqb status FAULT then print (MaintenanceAlert machine_id) else ret tt
  | ProductionDashboard _ =>
      print (DashboardUpdate machine_id (Status_value status))
  | Unimplemented _ => throw NotImplementedError
  | Leaver _ => (unsubscribe Obj_eq_dec o ;;; ret tt)%py
  | Joiner _ => (subscribe isinstance_Observer o ;;; ret tt)%py
  | Stranger _ => throw AttributeError
  end.

Definition register_observer := Registry.register_observer (Env := unit) isinstance_Observer.
Definition remove_observer := Registry.remove_observer (Env := unit) Obj_eq_dec.
Definition set_status := Registry.set_status update.

(** [Machine(machine_id=...)] with the dataclass defaults. *)
Definition new_machine (machine_id : string) : World :=
  mkWorld (mkMachine [] machine_id IDLE) [] tt.

Definition engineer : Obj := MaintenanceEngineer 1.
Definition dashboard : Obj := ProductionDashboard 2.

(** [main()] of the module, up to the state before the first broadcast. *)
Definition main_setup : World :=
  snd (register_observer dashboard
         (snd (register_observer engineer (new_machine "CNC-001")))).



(** The observer classes that the module itself defines. *)
Definition shipped (o : Obj) : bool :=
  match o with
  | MaintenanceEngineer _ | ProductionDashboard _ => true
  | _ => false
  end.

(** The lines one [update] call of a shipped observer prints. *)
Definition update_lines (machine_id : string) (status : Status) (o : Obj) : list Line :=
  match o with
  | MaintenanceEngineer _ =>
      if Status_eqb status FAULT then [MaintenanceAlert machine_id] else []
  | ProductionDashboard _ => [DashboardUpdate machine_id (Status_value status)]
  | _ => []
  end.

(** The state after more lines were printed. *)
Definition printed (w : World) (ls : list Line) : World :=
  mkWorld (machine w) (stdout w ++ ls) (env w).

(** The registry calls of a driver that registers both observers of
    [main], takes the engineer out and puts it back. *)
Definition shuffle_calls : list (RegistryCall Obj) :=
  [CallRegister engineer; CallRegister dashboard;
   CallRemove engineer; CallRegister engineer].


(** *** Vocabulary of the properties *)


(** Idempotent registration, as the specification words it: registering
    an observer that is already registered returns [False], changes
    nothing, and leaves one entry for it. *)
Definition register_idempotent_as_specified : Prop :=
  forall (w : World) (o : Obj),
    In o (_observers (machine w)) ->
    register_observer o w = (Ok false, w)
    /\ count_occ Obj_eq_dec (_observers (machine (snd (register_observer o w)))) o = 1.




End Plant.

(** * Properties of the decorator chain *)

Module DecoratorFacts.
Import Decorator.

Lemma count_lines_app (p : Line -> bool) (xs ys : list Line) :
  count_lines p (xs ++ ys) = count_lines p xs + count_lines p ys.
Proof.
  unfold count_lines. rewrite filter_app. apply length_app.
Qed.

(** The guard with a role of the enumeration on both sides: one equation
    for the whole wrapper. *)
Lemma require_permission_roles (caller required : UserRole) (func : PyFunc)
  (args : list PyVal) (kwargs : list (string * PyVal)) (c : Console) :
  dict_find kwargs "user_role" = Some (VRole caller) ->
  call (require_permission (VRole required) func) args kwargs c =
    if (UserRole_value caller <=? UserRole_value required)%Z
    then (Ok VNone, printed c [PermissionDenied (VRole caller) (__name__ func)])
    else call func args kwargs c.
Proof.
  intros Hrole.
  unfold require_permission, wraps, dict_get; simpl.
  rewrite Hrole. unfold bind, lift; simpl.
  destruct (UserRole_value caller <=? UserRole_value required)%Z; reflexivity.
Qed.

(** What the undecorated terminal does on a well-formed call. *)
Lemma report_production_def_runs (order_id quantity role : PyVal) (c : Console) :
  call report_production_def [order_id; quantity] [("user_role", role)] c =
    (Ok (VDict [("order_id", order_id); ("status", VStr "completed")]),
     printed c [MesReport order_id quantity]).
Proof. reflexivity. Qed.

(** The terminal under [sync_to_erp] on a well-formed call. *)
Lemma synced_report_runs (order_id quantity role : PyVal) (c : Console) :
  call (sync_to_erp report_production_def) [order_id; quantity] [("user_role", role)] c =
    (Ok (VDict [("order_id", order_id); ("status", VStr "completed")]),
     printed c [MesReport order_id quantity; ErpSync order_id; ErpSyncTime (clock c)]).
Proof.
  unfold sync_to_erp, wraps; simpl. unfold bind; simpl.
  unfold printed; simpl. rewrite <- app_assoc. simpl.
  rewrite <- app_assoc. reflexivity.
Qed.

(** The whole stack, for every pair of roles. *)
Lemma guarded_report_runs (caller required : UserRole) (order_id quantity : PyVal)
  (c : Console) :
  call (guarded_report required) [order_id; quantity] [("user_role", VRole caller)] c =
    if (UserRole_value caller <=? UserRole_value required)%Z
    then (Ok VNone, printed c [PermissionDenied (VRole caller) "report_production"])
    else (Ok (VDict [("order_id", order_id); ("status", VStr "completed")]),
          printed c [MesReport order_id quantity; ErpSync order_id; ErpSyncTime (clock c)]).
Proof.
  unfold guarded_report.
  rewrite (require_permission_roles caller required) by reflexivity.
  rewrite synced_report_runs. reflexivity.
Qed.

Lemma UserRole_value_le (a b : UserRole) :
  ((UserRole_value a <=? UserRole_value b)%Z = false) <->
  (UserRole_value b < UserRole_value a)%Z.
Proof. rewrite Z.leb_gt. reflexivity. Qed.

(** C1.  The authorization stage lets the wrapped operation run exactly
    when the caller's role is strictly greater than the required role.
    For roles [caller] and [required] of [UserRole] and any wrapped
    function: when [required < caller] the wrapper is the wrapped call;
    otherwise the wrapper returns [None] after printing the refusal and
    the wrapped function is not called.  On the stack of the module the
    terminal runs (one more report line) if and only if
    [required < caller]; with [OPERATOR] required, [GUEST] and
    [OPERATOR] are refused and [ADMIN] receives the completed record. *)
Theorem authorization_strictly_greater
  (caller required : UserRole) (func : PyFunc)
  (args : list PyVal) (kwargs : list (string * PyVal)) (c : Console) :
  dict_find kwargs "user_role" = Some (VRole caller) ->
  ((UserRole_value required < UserRole_value caller)%Z ->
     call (require_permission (VRole required) func) args kwargs c =
       call func args kwargs c)
  /\ (~ (UserRole_value required < UserRole_value caller)%Z ->
     call (require_permission (VRole required) func) args kwargs c =
       (Ok VNone, printed c [PermissionDenied (VRole caller) (__name__ func)]))
  /\ (forall order_id quantity,
        count_lines is_report
          (stdout (snd (call (guarded_report required) [order_id; quantity]
                          [("user_role", VRole caller)] c)))
        = count_lines is_report (stdout c) + 1
        <-> (UserRole_value required < UserRole_value caller)%Z)
  /\ (forall order_id quantity,
        fst (call report_production [order_id; quantity] [("user_role", VRole GUEST)] c)
          = Ok VNone
        /\ fst (call report_production [order_id; quantity] [("user_role", VRole OPERATOR)] c)
          = Ok VNone
        /\ fst (call report_production [order_id; quantity] [("user_role", VRole ADMIN)] c)
          = Ok (VDict [("order_id", order_id); ("status", VStr "completed")])).
Proof.
  intros Hrole.
  pose proof (require_permission_roles caller required func args kwargs c Hrole) as E.
  split; [|split; [|split]].
  - intros Hlt. apply UserRole_value_le in Hlt. rewrite Hlt in E. exact E.
  - intros Hge. rewrite E.
    destruct (UserRole_value caller <=? UserRole_value required)%Z eqn:L; [reflexivity|].
    apply UserRole_value_le in L. contradiction.
  - intros order_id quantity. rewrite guarded_report_runs.
    destruct (UserRole_value caller <=? UserRole_value required)%Z eqn:L; simpl.
    + rewrite count_lines_app. apply Z.leb_le in L.
      unfold count_lines at 2. simpl. split; intros H; lia.
    + rewrite count_lines_app. apply UserRole_value_le in L.
      split; intros _; [exact L | reflexivity].
  - intros order_id quantity. unfold report_production.
    fold (guarded_report OPERATOR).
    rewrite !guarded_report_runs. simpl. repeat split.
Qed.

Lemma run_report_eq (caller : UserRole) (order_id quantity : PyVal) (c : Console) :
  run_report caller order_id quantity c =
    if (UserRole_value caller <=? UserRole_value OPERATOR)%Z
    then (Ok VNone, printed c [PermissionDenied (VRole caller) "report_production"])
    else (Ok (VDict [("order_id", order_id); ("status", VStr "completed")]),
          printed c [MesReport order_id quantity; ErpSync order_id; ErpSyncTime (clock c)]).
Proof.
  unfold run_report, report_production. fold (guarded_report OPERATOR).
  apply guarded_report_runs.
Qed.

(** C5.  On the chain [require_permission(OPERATOR)] over [sync_to_erp]
    over the report terminal, one invocation runs the terminal at most
    once, and only when the guard lets the caller through; the ERP
    synchronisation fires as often as the terminal ran.  A [GUEST] call
    returns the refusal, with no report line and no synchronisation line
    added; an [ADMIN] call returns the completed record, with exactly one
    report line and exactly one synchronisation line added. *)
Theorem chain_terminal_at_most_once
  (caller : UserRole) (order_id quantity : PyVal) (c : Console) :
  (exists n : nat,
      n <= 1
      /\ count_lines is_report (stdout (snd (run_report caller order_id quantity c)))
         = count_lines is_report (stdout c) + n
      /\ count_lines is_sync (stdout (snd (run_report caller order_id quantity c)))
         = count_lines is_sync (stdout c) + n
      /\ (n = 1 <-> (UserRole_value OPERATOR < UserRole_value caller)%Z))
  /\ (fst (run_report GUEST order_id quantity c) = Ok VNone
      /\ count_lines is_report (stdout (snd (run_report GUEST order_id quantity c)))
         = count_lines is_report (stdout c)
      /\ count_lines is_sync (stdout (snd (run_report GUEST order_id quantity c)))
         = count_lines is_sync (stdout c))
  /\ (fst (run_report ADMIN order_id quantity c)
        = Ok (VDict [("order_id", order_id); ("status", VStr "completed")])
      /\ count_lines is_report (stdout (snd (run_report ADMIN order_id quantity c)))
         = count_lines is_report (stdout c) + 1
      /\ count_lines is_sync (stdout (snd (run_report ADMIN order_id quantity c)))
         = count_lines is_sync (stdout c) + 1).
Proof.
  split; [|split].
  - rewrite run_report_eq.
    destruct caller; simpl.
    + exists 0. rewrite !count_lines_app. simpl. repeat split; try lia; discriminate.
    + exists 0. rewrite !count_lines_app. simpl. repeat split; try lia; discriminate.
    + exists 1. rewrite !count_lines_app. simpl. repeat split; lia.
  - rewrite run_report_eq. simpl. rewrite !count_lines_app. simpl.
    repeat split; apply Nat.add_0_r.
  - rewrite run_report_eq. simpl. rewrite !count_lines_app. simpl.
    repeat split.
Qed.

(** *** The post-success stage *)

(** C6, counterexample.  [status_only] returns a non-empty record; the
    stage raises [KeyError] on [result['order_id']] instead of returning
    the record, and prints no synchronisation line. *)
Lemma sync_stage_needs_order_id : ~ sync_stage_as_specified.
Proof.
  intros H.
  destruct (H status_only [] [] (mkConsole [] 0%Z) (mkConsole [] 0%Z)
              (VDict [("status", VStr "completed")]) eq_refl) as [Hres _].
  discriminate Hres.
Qed.

Lemma sync_to_erp_unfold (func : PyFunc) (args : list PyVal)
  (kwargs : list (string * PyVal)) (c : Console) :
  call (sync_to_erp func) args kwargs c =
    match call func args kwargs c with
    | (Raise e, c1) => (Raise e, c1)
    | (Ok v, c1) =>
        if truthy v then
          match subscript v "order_id" with
          | Ok oid => (Ok v, printed c1 [ErpSync oid; ErpSyncTime (clock c1)])
          | Raise e => (Raise e, c1)
          end
        else (Ok v, c1)
    end.
Proof.
  unfold sync_to_erp, wraps; simpl. unfold bind at 1.
  destruct (call func args kwargs c) as [[v|e] c1]; [|reflexivity].
  unfold bind at 1.
  destruct (truthy v); [|reflexivity].
  unfold bind, lift; simpl.
  destruct (subscript v "order_id") as [oid|e]; simpl; [|reflexivity].
  unfold printed. simpl. rewrite <- app_assoc. reflexivity.
Qed.

(** C6, amended.  The post-success stage always calls the wrapped
    function first.  When that returns a false value ([None], an empty
    record, ...) the value is handed up unchanged and nothing is printed;
    when it returns a true value that has an ["order_id"] entry the value
    is handed up unchanged after exactly one synchronisation (the ERP
    line and its time stamp); so on these results the synchronisation
    fires if and only if the result is non-empty.  A true value without
    an ["order_id"] entry makes the stage raise, with no synchronisation. *)
Theorem sync_to_erp_spec (func : PyFunc) (args : list PyVal)
  (kwargs : list (string * PyVal)) (c c1 : Console) (v : PyVal) :
  call func args kwargs c = (Ok v, c1) ->
  (truthy v = false ->
     call (sync_to_erp func) args kwargs c = (Ok v, c1))
  /\ (forall oid, truthy v = true -> subscript v "order_id" = Ok oid ->
     call (sync_to_erp func) args kwargs c
       = (Ok v, printed c1 [ErpSync oid; ErpSyncTime (clock c1)]))
  /\ (truthy v = false \/ (exists oid, subscript v "order_id" = Ok oid) ->
     fst (call (sync_to_erp func) args kwargs c) = Ok v
     /\ count_lines is_sync (stdout (snd (call (sync_to_erp func) args kwargs c)))
        = count_lines is_sync (stdout c1) + (if truthy v then 1 else 0))
  /\ (forall e, truthy v = true -> subscript v "order_id" = Raise e ->
     call (sync_to_erp func) args kwargs c = (Raise e, c1)).
Proof.
  intros Hcall.
  pose proof (sync_to_erp_unfold func args kwargs c) as E.
  rewrite Hcall in E.
  split; [|split; [|split]].
  - intros Hf. rewrite Hf in E. exact E.
  - intros oid Ht Hsub. rewrite Ht, Hsub in E. exact E.
  - intros Hdom. rewrite E.
    destruct (truthy v) eqn:Ht.
    + destruct Hdom as [Hf | [oid Hsub]]; [discriminate|].
      rewrite Hsub. simpl. rewrite count_lines_app. split; reflexivity.
    + simpl. split; [reflexivity | symmetry; apply Nat.add_0_r].
  - intros e Ht Hsub. rewrite Ht, Hsub in E. exact E.
Qed.

(** An exception of the wrapped function passes through the stage. *)
Lemma sync_to_erp_raise (func : PyFunc) (args : list PyVal)
  (kwargs : list (string * PyVal)) (c c1 : Console) (e : Exn) :
  call func args kwargs c = (Raise e, c1) ->
  call (sync_to_erp func) args kwargs c = (Raise e, c1).
Proof.
  intros Hcall. rewrite sync_to_erp_unfold, Hcall. reflexivity.
Qed.

(** *** Refusals *)

(** C8, counterexample.  A [GUEST] call of the module's
    [report_production] is refused with the bare value [None]; the reason
    is not in the returned value. *)
Lemma refusal_returns_bare_none : ~ refusal_as_specified.
Proof.
  intros H.
  destruct (H (VRole OPERATOR) (VRole GUEST) (sync_to_erp report_production_def)
              [VStr "ORD-001"; VInt 100] [("user_role", VRole GUEST)]
              (mkConsole [] 0%Z) eq_refl eq_refl) as [v [Hv [s Hs]]].
  simpl in Hv. injection Hv as <-.
  destruct Hs as [Hs | [items [key [Hs _]]]]; discriminate Hs.
Qed.

(** C8, amended.  When the guard refuses, the wrapper returns [None] as
    an ordinary value (nothing is raised), the reason is printed as one
    line naming the caller's role and the wrapped function, and nothing
    else happens: the wrapped function, and with it every later stage and
    the terminal, is not called, whatever it would have done. *)
Theorem refusal_prints_reason_returns_none
  (role user_role : PyVal) (func : PyFunc) (args : list PyVal)
  (kwargs : list (string * PyVal)) (c : Console) :
  dict_find kwargs "user_role" = Some user_role ->
  py_le user_role role = Ok true ->
  call (require_permission role func) args kwargs c
    = (Ok VNone, printed c [PermissionDenied user_role (__name__ func)])
  /\ (forall other : PyFunc,
        __name__ other = __name__ func ->
        call (require_permission role other) args kwargs c
          = call (require_permission role func) args kwargs c)
  /\ count_lines is_report
       (stdout (snd (call (require_permission role func) args kwargs c)))
     = count_lines is_report (stdout c)
  /\ count_lines is_sync
       (stdout (snd (call (require_permission role func) args kwargs c)))
     = count_lines is_sync (stdout c).
Proof.
  intros Hrole Hle.
  assert (E : forall f, call (require_permission role f) args kwargs c
                = (Ok VNone, printed c [PermissionDenied user_role (__name__ f)])).
  { intros f. unfold require_permission, wraps, dict_get; simpl.
    rewrite Hrole. unfold bind, lift; simpl. rewrite Hle. reflexivity. }
  split; [apply E|split; [|split]].
  - intros other Hname. rewrite !E, Hname. reflexivity.
  - rewrite E. simpl. rewrite count_lines_app. apply Nat.add_0_r.
  - rewrite E. simpl. rewrite count_lines_app. apply Nat.add_0_r.
Qed.

(** The guard as one case analysis on the comparison. *)
Lemma require_permission_unfold (role : PyVal) (func : PyFunc)
  (args : list PyVal) (kwargs : list (string * PyVal)) (c : Console) :
  call (require_permission role func) args kwargs c =
    match py_le (dict_get kwargs "user_role" (VStr "Guest")) role with
    | Ok true =>
        (Ok VNone,
         printed c [PermissionDenied (dict_get kwargs "user_role" (VStr "Guest"))
                      (__name__ func)])
    | Ok false => call func args kwargs c
    | Raise e => (Raise e, c)
    end.
Proof.
  unfold require_permission, wraps; cbn [call]. unfold bind at 1, lift.
  destruct (py_le (dict_get kwargs "user_role" (VStr "Guest")) role) as [[|]|e];
    reflexivity.
Qed.

(** *** A call without [user_role] *)

(** The terminal never returns [None]: it returns its record or raises. *)
Lemma report_production_def_not_none (args : list PyVal)
  (kwargs : list (string * PyVal)) (c : Console) :
  fst (call report_production_def args kwargs c) <> Ok VNone.
Proof.
  unfold report_production_def; simpl.
  destruct (if known_keywords _ kwargs then _ else None) as [vs|]; [|discriminate].
  destruct vs as [|a [|b [|x [|y vs]]]]; try discriminate.
Qed.

Lemma synced_report_not_none (args : list PyVal)
  (kwargs : list (string * PyVal)) (c : Console) :
  fst (call (sync_to_erp report_production_def) args kwargs c) <> Ok VNone.
Proof.
  rewrite sync_to_erp_unfold.
  pose proof (report_production_def_not_none args kwargs c) as N.
  destruct (call report_production_def args kwargs c) as [[v|e] c1]; simpl in *.
  - destruct (truthy v) eqn:T; [|exact N].
    destruct (subscript v "order_id"); [exact N | discriminate].
  - discriminate.
Qed.

(** C10.  When the call carries no [user_role] keyword, the guard takes
    the default ["Guest"], a string, and compares it with the required
    member of [UserRole]: the call raises [TypeError] and leaves the
    state as it was, whatever the wrapped function and the other
    arguments.  On the module's stack a call returns [None] only when a
    [user_role] was given that compares with the enumeration as an
    integer (and is at most the required role). *)
Theorem missing_user_role_raises_TypeError
  (role : UserRole) (func : PyFunc) (args : list PyVal)
  (kwargs : list (string * PyVal)) (c : Console) :
  (dict_find kwargs "user_role" = None ->
     call (require_permission (VRole role) func) args kwargs c = (Raise TypeError, c))
  /\ (fst (call (guarded_report role) args kwargs c) = Ok VNone ->
      exists v z, dict_find kwargs "user_role" = Some v
                  /\ as_int v = Some z
                  /\ (z <= UserRole_value role)%Z).
Proof.
  split.
  - intros Hnone. rewrite require_permission_unfold. unfold dict_get.
    rewrite Hnone. reflexivity.
  - unfold guarded_report. rewrite require_permission_unfold. unfold dict_get.
    destruct (dict_find kwargs "user_role") as [v|] eqn:F.
    + unfold py_le.
      destruct (as_int v) as [z|] eqn:Z.
      * cbn [as_int].
        destruct (z <=? UserRole_value role)%Z eqn:L.
        -- intros _. exists v, z. repeat split; try assumption. now apply Z.leb_le.
        -- intros H. exfalso.
           exact (synced_report_not_none args kwargs c H).
      * cbn [as_int]. destruct v; simpl in Z; try discriminate; cbn; discriminate.
    + cbn. discriminate.
Qed.

End DecoratorFacts.

(** * Properties of the observer registry *)

Module RegistryFacts.
Import Registry.

Section Broadcast.

Context {Obj Env : Type}.
Variable Obj_eq_dec : forall a b : Obj, {a = b} + {a <> b}.
Variable isinstance_Observer : Obj -> bool.
Variable update : Obj -> string -> Status -> M (World Obj Env) unit.

Lemma nth_error_after (seen : list Obj) (o : Obj) (rest : list Obj) :
  nth_error (seen ++ o :: rest) (List.length seen) = Some o.
Proof.
  induction seen as [|x seen IH]; simpl; [reflexivity | exact IH].
Qed.

Lemma nth_error_at_end (l : list Obj) : nth_error l (List.length l) = None.
Proof.
  induction l as [|x l IH]; simpl; [reflexivity | exact IH].
Qed.

(** The loop over a stretch of quiet observers: it delivers to each of
    them in order and goes on behind them with the machine unchanged. *)
Lemma notify_from_quiet_prefix (pre : list Obj) :
  forall (fuel : nat) (seen rest : list Obj) (w : World Obj Env),
    Forall (quiet update) pre ->
    _observers (machine w) = seen ++ pre ++ rest ->
    exists w',
      machine w' = machine w
      /\ notify_from update (List.length pre + fuel) (List.length seen) w =
           match notify_from update fuel (List.length seen + List.length pre) w' with
           | Some (ds, r) => Some (deliveries_to (machine w) pre ++ ds, r)
           | None => None
           end.
Proof.
  induction pre as [|o pre IH]; intros fuel seen rest w Hq Hobs.
  - exists w. split; [reflexivity|]. simpl. rewrite Nat.add_0_r.
    destruct (notify_from update fuel (List.length seen) w) as [[ds r]|]; reflexivity.
  - inversion Hq as [|o' pre' Ho Hpre]; subst.
    destruct (Ho (machine_id (machine w)) (_status (machine w)) w) as [w1 [Hu Hm]].
    assert (Hobs1 : _observers (machine w1) = (seen ++ [o]) ++ pre ++ rest).
    { rewrite Hm, Hobs, <- app_assoc. reflexivity. }
    destruct (IH fuel (seen ++ [o]) rest w1 Hpre Hobs1) as [w' [Hm' Hrun]].
    exists w'. split; [congruence|].
    change (List.length (o :: pre) + fuel) with (S (List.length pre + fuel)).
    cbn [notify_from].
    replace (nth_error (_observers (machine w)) (List.length seen)) with (Some o)
      by (rewrite Hobs; symmetry; apply nth_error_after).
    rewrite Hu.
    replace (S (List.length seen)) with (List.length (seen ++ [o]))
      by (rewrite length_app; simpl; lia).
    rewrite Hrun.
    replace (List.length (seen ++ [o]) + List.length pre)
      with (List.length seen + List.length (o :: pre))
      by (rewrite length_app; simpl; lia).
    destruct (notify_from update fuel (List.length seen + List.length (o :: pre)) w')
      as [[ds r]|]; [|reflexivity].
    rewrite Hm. reflexivity.
Qed.

(** A broadcast over quiet observers only. *)
Lemma notify_observers_quiet (w : World Obj Env) (fuel : nat) :
  Forall (quiet update) (_observers (machine w)) ->
  List.length (_observers (machine w)) < fuel ->
  exists w',
    machine w' = machine w
    /\ notify_observers update fuel w
       = Some (deliveries_to (machine w) (_observers (machine w)), (Ok tt, w')).
Proof.
  intros Hq Hfuel.
  assert (exists k, fuel = List.length (_observers (machine w)) + S k) as [k ->]
    by (exists (fuel - List.length (_observers (machine w)) - 1); lia).
  destruct (notify_from_quiet_prefix (_observers (machine w)) (S k) [] [] w Hq)
    as [w' [Hm Hrun]].
  { simpl. now rewrite app_nil_r. }
  exists w'. split; [exact Hm|].
  unfold notify_observers. simpl in Hrun. rewrite Hrun.
  cbn [notify_from].
  rewrite <- Hm, nth_error_at_end. rewrite app_nil_r. reflexivity.
Qed.

Lemma set_status_unfold (fuel : nat) (status : Status) (w : World Obj Env) :
  set_status update fuel status w = notify_observers update fuel (committed w status).
Proof. reflexivity. Qed.

Lemma set_status_quiet (w : World Obj Env) (status : Status) (fuel : nat) :
  Forall (quiet update) (_observers (machine w)) ->
  List.length (_observers (machine w)) < fuel ->
  exists w',
    machine w' = mkMachine (_observers (machine w)) (machine_id (machine w)) status
    /\ set_status update fuel status w
       = Some (deliveries_to
                 (mkMachine (_observers (machine w)) (machine_id (machine w)) status)
                 (_observers (machine w)),
               (Ok tt, w')).
Proof.
  intros Hq Hfuel. rewrite set_status_unfold.
  destruct (notify_observers_quiet (committed w status) fuel Hq Hfuel) as [w' [Hm Hrun]].
  exists w'. split; [exact Hm | exact Hrun].
Qed.


Lemma register_observer_unfold (w : World Obj Env) (o : Obj) :
  (isinstance_Observer o = true ->
     register_observer isinstance_Observer o w = (Ok true, appended w o))
  /\ (isinstance_Observer o = false ->
     register_observer isinstance_Observer o w = (Ok false, w)).
Proof.
  unfold register_observer. split; intros H; rewrite H; reflexivity.
Qed.

(** The loop over quiet observers is the snapshot broadcast: it delivers
    to each of them in order and leaves the state that calling their
    [update] one after the other leaves. *)
Lemma notify_from_quiet_snapshot (rest : list Obj) :
  forall (seen : list Obj) (fuel : nat) (w : World Obj Env),
    Forall (quiet update) rest ->
    _observers (machine w) = seen ++ rest ->
    List.length rest < fuel ->
    notify_from update fuel (List.length seen) w
    = Some (deliveries_to (machine w) rest,
            snapshot_broadcast update rest (machine_id (machine w))
              (_status (machine w)) w)
    /\ fst (snapshot_broadcast update rest (machine_id (machine w))
              (_status (machine w)) w) = Ok tt
    /\ machine (snd (snapshot_broadcast update rest (machine_id (machine w))
                       (_status (machine w)) w)) = machine w.
Proof.
  induction rest as [|o rest IH]; intros seen fuel w Hq Hobs Hfuel.
  - destruct fuel as [|fuel]; [inversion Hfuel|]. cbn [notify_from].
    rewrite Hobs, app_nil_r, nth_error_at_end.
    repeat split.
  - destruct fuel as [|fuel]; [inversion Hfuel|]. cbn [notify_from].
    inversion Hq as [|o' rest' Ho Hrest]; subst.
    rewrite Hobs, nth_error_after.
    destruct (Ho (machine_id (machine w)) (_status (machine w)) w) as [w1 [Hu Hm]].
    cbn [snapshot_broadcast]. rewrite Hu.
    assert (Hobs1 : _observers (machine w1) = (seen ++ [o]) ++ rest)
      by (rewrite Hm, Hobs, <- app_assoc; reflexivity).
    assert (Hfuel1 : List.length rest < fuel) by (simpl in Hfuel; lia).
    destruct (IH (seen ++ [o]) fuel w1 Hrest Hobs1 Hfuel1) as [Hrun [Hok Hmach]].
    rewrite Hm in Hrun, Hok, Hmach.
    replace (S (List.length seen)) with (List.length (seen ++ [o]))
      by (rewrite length_app; simpl; lia).
    rewrite Hrun. repeat split; assumption.
Qed.

Lemma set_status_quiet_snapshot (w : World Obj Env) (status : Status) (fuel : nat) :
  Forall (quiet update) (_observers (machine w)) ->
  List.length (_observers (machine w)) < fuel ->
  set_status update fuel status w
  = Some (map (fun o => (o, machine_id (machine w), status)) (_observers (machine w)),
          snapshot_broadcast update (_observers (machine w)) (machine_id (machine w))
            status (committed w status))
  /\ fst (snapshot_broadcast update (_observers (machine w)) (machine_id (machine w))
            status (committed w status)) = Ok tt
  /\ machine (snd (snapshot_broadcast update (_observers (machine w))
                     (machine_id (machine w)) status (committed w status)))
     = mkMachine (_observers (machine w)) (machine_id (machine w)) status.
Proof.
  intros Hq Hfuel. rewrite set_status_unfold. unfold notify_observers.
  exact (notify_from_quiet_snapshot (_observers (machine w)) [] fuel
           (committed w status) Hq eq_refl Hfuel).
Qed.



(** C3, amended.  [register_observer] returns [False], with no effect,
    only for an argument that is not an [Observer].  For an observer it
    returns [True] and appends it to the list, also when the observer is
    already registered: the list then holds one more entry for it. *)
Theorem register_observer_always_appends (w : World Obj Env) (o : Obj) :
  (isinstance_Observer o = true ->
     register_observer isinstance_Observer o w = (Ok true, appended w o)
     /\ _observers (machine (appended w o)) = _observers (machine w) ++ [o]
     /\ count_occ Obj_eq_dec (_observers (machine (appended w o))) o
        = count_occ Obj_eq_dec (_observers (machine w)) o + 1)
  /\ (isinstance_Observer o = false ->
     register_observer isinstance_Observer o w = (Ok false, w)).
Proof.
  destruct (register_observer_unfold w o) as [Hyes Hno].
  split; [|exact Hno].
  intros Hobs. split; [exact (Hyes Hobs)|]. split; [reflexivity|].
  cbn [appended machine _observers]. rewrite count_occ_app. simpl.
  destruct (Obj_eq_dec o o) as [_|N]; [reflexivity | contradiction].
Qed.



End Broadcast.

End RegistryFacts.

(** * The shop floor: counterexamples and instances *)

Module PlantFacts.
Import Registry.
Import Plant.

(** The two observer classes of the module are quiet. *)
Lemma MaintenanceEngineer_quiet (id : nat) : quiet update (MaintenanceEngineer id).
Proof.
  intros mid st w. destruct st; eexists; split; reflexivity.
Qed.

Lemma ProductionDashboard_quiet (id : nat) : quiet update (ProductionDashboard id).
Proof.
  intros mid st w. eexists; split; reflexivity.
Qed.


(** C3, counterexample.  In the state [main] sets up, the engineer is
    registered; registering it again returns [True] and changes the
    list. *)
Lemma second_register_returns_true : ~ register_idempotent_as_specified.
Proof.
  intros H.
  destruct (H main_setup engineer (or_introl eq_refl)) as [Hreg _].
  vm_compute in Hreg. discriminate Hreg.
Qed.




(** The same broadcast, spelled out. *)
Lemma leaver_broadcast :
  set_status 3 RUNNING (mkWorld (mkMachine [Leaver 3; dashboard] "CNC-001" IDLE) [] tt)
  = Some ([(Leaver 3, "CNC-001", RUNNING)],
          (Ok tt,
           mkWorld (mkMachine [dashboard] "CNC-001" RUNNING)
             [StatusChange "CNC-001" "running"] tt)).
Proof. reflexivity. Qed.

Lemma Joiner_update (j : nat) (mid : string) (st : Status) (w : World) :
  update (Joiner j) mid st w = (Ok tt, appended w (Joiner j)).
Proof. reflexivity. Qed.

(** An observer that registers itself again from inside [update] keeps
    the loop going for ever: whatever the fuel, the broadcast does not
    end. *)
Lemma joiner_loop_never_ends (j : nat) :
  forall (fuel i n : nat) (w : World),
    _observers (machine w) = repeat (Joiner j) n ->
    i < n ->
    notify_from update fuel i w = None.
Proof.
  induction fuel as [|fuel IH]; intros i n w Hobs Hi; [reflexivity|].
  cbn [notify_from]. rewrite Hobs.
  rewrite (nth_error_repeat (Joiner j) Hi).
  rewrite Joiner_update.
  rewrite (IH (S i) (S n)); [reflexivity | | lia].
  cbn [appended machine _observers]. rewrite Hobs.
  change (repeat (Joiner j) (S n)) with (Joiner j :: repeat (Joiner j) n).
  apply eq_sym, repeat_cons.
Qed.

Lemma joiner_broadcast_never_ends (fuel : nat) (status : Status) :
  set_status fuel status (mkWorld (mkMachine [Joiner 4] "CNC-001" IDLE) [] tt) = None.
Proof.
  unfold set_status. rewrite RegistryFacts.set_status_unfold.
  apply (joiner_loop_never_ends 4 fuel 0 1); [reflexivity | lia].
Qed.

End PlantFacts.

(** * The theorems at the inputs of the two [main] functions *)

Module Instances.

(** C1 at [main]'s second call: an [ADMIN] caller against the required
    [OPERATOR] passes the guard. *)
Lemma authorization_strictly_greater_witness :
  Decorator.dict_find [("user_role", Decorator.VRole Decorator.ADMIN)] "user_role"
    = Some (Decorator.VRole Decorator.ADMIN)
  /\ Decorator.call
       (Decorator.require_permission (Decorator.VRole Decorator.OPERATOR)
          (Decorator.sync_to_erp Decorator.report_production_def))
       [Decorator.VStr "ORD-002"; Decorator.VInt 500]
       [("user_role", Decorator.VRole Decorator.ADMIN)]
       (Decorator.mkConsole [] 0)
     = Decorator.call (Decorator.sync_to_erp Decorator.report_production_def)
         [Decorator.VStr "ORD-002"; Decorator.VInt 500]
         [("user_role", Decorator.VRole Decorator.ADMIN)]
         (Decorator.mkConsole [] 0).
Proof.
  split; [reflexivity|].
  apply (proj1 (DecoratorFacts.authorization_strictly_greater
                  Decorator.ADMIN Decorator.OPERATOR
                  (Decorator.sync_to_erp Decorator.report_production_def)
                  [Decorator.VStr "ORD-002"; Decorator.VInt 500]
                  [("user_role", Decorator.VRole Decorator.ADMIN)]
                  (Decorator.mkConsole [] 0) eq_refl)).
  reflexivity.
Defined.

(** C6 at the record of the specification's example: one
    synchronisation, the record handed up unchanged. *)
Lemma sync_to_erp_spec_witness :
  Decorator.call Decorator.completed_ord_002 [] [] (Decorator.mkConsole [] 0)
    = (Ok (Decorator.VDict [("order_id", Decorator.VStr "ORD-002");
                            ("status", Decorator.VStr "completed")]),
       Decorator.mkConsole [] 0)
  /\ Decorator.call (Decorator.sync_to_erp Decorator.completed_ord_002) [] []
       (Decorator.mkConsole [] 0)
     = (Ok (Decorator.VDict [("order_id", Decorator.VStr "ORD-002");
                             ("status", Decorator.VStr "completed")]),
        Decorator.mkConsole
          [Decorator.ErpSync (Decorator.VStr "ORD-002"); Decorator.ErpSyncTime 0] 0).
Proof.
  split; [reflexivity|].
  apply (proj1 (proj2 (DecoratorFacts.sync_to_erp_spec Decorator.completed_ord_002
                         [] [] (Decorator.mkConsole [] 0) (Decorator.mkConsole [] 0)
                         _ eq_refl)) (Decorator.VStr "ORD-002"));
    reflexivity.
Defined.

(** C8 at [main]'s first call: a [GUEST] caller is refused with [None]
    and one printed line. *)
Lemma refusal_prints_reason_returns_none_witness :
  Decorator.dict_find [("user_role", Decorator.VRole Decorator.GUEST)] "user_role"
    = Some (Decorator.VRole Decorator.GUEST)
  /\ Decorator.py_le (Decorator.VRole Decorator.GUEST) (Decorator.VRole Decorator.OPERATOR)
     = Ok true
  /\ Decorator.call Decorator.report_production
       [Decorator.VStr "ORD-001"; Decorator.VInt 100]
       [("user_role", Decorator.VRole Decorator.GUEST)]
       (Decorator.mkConsole [] 0)
     = (Ok Decorator.VNone,
        Decorator.mkConsole
          [Decorator.PermissionDenied (Decorator.VRole Decorator.GUEST)
             "report_production"] 0).
Proof.
  split; [reflexivity|]. split; [reflexivity|].
  apply (proj1 (DecoratorFacts.refusal_prints_reason_returns_none
                  (Decorator.VRole Decorator.OPERATOR) (Decorator.VRole Decorator.GUEST)
                  (Decorator.sync_to_erp Decorator.report_production_def)
                  [Decorator.VStr "ORD-001"; Decorator.VInt 100]
                  [("user_role", Decorator.VRole Decorator.GUEST)]
                  (Decorator.mkConsole [] 0) eq_refl eq_refl)).
Defined.

(** C10 at a call that passes the role by position,
    [report_production("ORD-001", 100, UserRole.GUEST)]: the keyword is
    missing and the call raises [TypeError]. *)
Lemma missing_user_role_raises_TypeError_witness :
  Decorator.dict_find [] "user_role" = None
  /\ Decorator.call Decorator.report_production
       [Decorator.VStr "ORD-001"; Decorator.VInt 100; Decorator.VRole Decorator.GUEST]
       [] (Decorator.mkConsole [] 0)
     = (Raise TypeError, Decorator.mkConsole [] 0).
Proof.
  split; [reflexivity|].
  apply (proj1 (DecoratorFacts.missing_user_role_raises_TypeError
                  Decorator.OPERATOR
                  (Decorator.sync_to_erp Decorator.report_production_def)
                  [Decorator.VStr "ORD-001"; Decorator.VInt 100;
                   Decorator.VRole Decorator.GUEST]
                  [] (Decorator.mkConsole [] 0))).
  reflexivity.
Defined.

Import Registry.




(** C3 at the state [main] sets up: the engineer, already registered, is
    registered again and is then in the list twice. *)
Lemma register_observer_always_appends_witness :
  Plant.isinstance_Observer Plant.engineer = true
  /\ register_observer Plant.isinstance_Observer Plant.engineer Plant.main_setup
     = (Ok true,
        mkWorld (mkMachine [Plant.engineer; Plant.dashboard; Plant.engineer] "CNC-001" IDLE)
          [] tt)
  /\ count_occ Plant.Obj_eq_dec
       [Plant.engineer; Plant.dashboard; Plant.engineer] Plant.engineer = 2.
Proof.
  split; [reflexivity|].
  destruct (proj1 (RegistryFacts.register_observer_always_appends
                     Plant.Obj_eq_dec Plant.isinstance_Observer
                     Plant.main_setup Plant.engineer) eq_refl) as [Hreg [_ Hcount]].
  split; [exact Hreg | exact Hcount].
Defined.



End Instances.

(** * Further properties of the decorator chain *)

Module DecoratorMore.
Import Decorator.
Import DecoratorFacts.

(** The comparison of the guard raises nothing but [TypeError]. *)
Lemma py_le_cases (v : PyVal) (role : UserRole) :
  match as_int v with
  | Some z => py_le v (VRole role) = Ok (z <=? UserRole_value role)%Z
  | None => py_le v (VRole role) = Raise TypeError
  end.
Proof.
  destruct v; reflexivity.
Qed.

(** X1.  The two decorators can be stacked in either order: for every
    wrapped function and every call, [sync_to_erp] over
    [require_permission] gives the same outcome and the same printed
    lines as [require_permission] over [sync_to_erp] (a refusal comes
    back as [None], which the synchronisation stage lets through
    untouched). *)
Theorem decorators_commute (role : PyVal) (func : PyFunc)
  (args : list PyVal) (kwargs : list (string * PyVal)) (c : Console) :
  call (sync_to_erp (require_permission role func)) args kwargs c
  = call (require_permission role (sync_to_erp func)) args kwargs c
  /\ __name__ (sync_to_erp (require_permission role func))
     = __name__ (require_permission role (sync_to_erp func)).
Proof.
  split; [|reflexivity].
  rewrite sync_to_erp_unfold, !require_permission_unfold.
  destruct (py_le (dict_get kwargs "user_role" (VStr "Guest")) role) as [[|]|e].
  - reflexivity.
  - symmetry. apply sync_to_erp_unfold.
  - reflexivity.
Qed.

(** The terminal on any call: it raises [TypeError] with nothing printed
    (the arguments do not fit its three parameters) or prints its report
    and returns its record. *)
Lemma report_production_def_outcomes (args : list PyVal)
  (kwargs : list (string * PyVal)) (c : Console) :
  call report_production_def args kwargs c = (Raise TypeError, c)
  \/ exists order_id quantity,
       call report_production_def args kwargs c
       = (Ok (VDict [("order_id", order_id); ("status", VStr "completed")]),
          printed c [MesReport order_id quantity]).
Proof.
  unfold report_production_def; cbn [call].
  destruct (if known_keywords _ kwargs then _ else None) as [vs|];
    [|left; reflexivity].
  destruct vs as [|a [|b [|x [|y vs]]]]; try (left; reflexivity).
  right. exists a, b. reflexivity.
Qed.

Lemma synced_report_outcomes (args : list PyVal)
  (kwargs : list (string * PyVal)) (c : Console) :
  call (sync_to_erp report_production_def) args kwargs c = (Raise TypeError, c)
  \/ exists order_id quantity,
       call (sync_to_erp report_production_def) args kwargs c
       = (Ok (VDict [("order_id", order_id); ("status", VStr "completed")]),
          printed c [MesReport order_id quantity; ErpSync order_id; ErpSyncTime (clock c)]).
Proof.
  rewrite sync_to_erp_unfold.
  destruct (report_production_def_outcomes args kwargs c) as [E | [oid [q E]]];
    rewrite E.
  - left. reflexivity.
  - right. exists oid, q. cbn. unfold printed. cbn. rewrite <- app_assoc. reflexivity.
Qed.

(** X2.  Every call of the decorated [report_production], well formed or
    not, ends in one of three ways and in no other: [TypeError] with
    nothing printed; [None] after the one refusal line, which names
    [report_production]; or the completed record after the report line,
    the ERP line for the same order and the time stamp.  In particular
    the synchronisation stage never fails on the terminal's record, and
    as many ERP lines as report lines are added. *)
Theorem guarded_report_outcomes (role : UserRole) (args : list PyVal)
  (kwargs : list (string * PyVal)) (c : Console) :
  (call (guarded_report role) args kwargs c = (Raise TypeError, c)
   \/ call (guarded_report role) args kwargs c
      = (Ok VNone,
         printed c [PermissionDenied (dict_get kwargs "user_role" (VStr "Guest"))
                      "report_production"])
   \/ exists order_id quantity,
        call (guarded_report role) args kwargs c
        = (Ok (VDict [("order_id", order_id); ("status", VStr "completed")]),
           printed c [MesReport order_id quantity; ErpSync order_id;
                      ErpSyncTime (clock c)]))
  /\ count_lines is_sync (stdout (snd (call (guarded_report role) args kwargs c)))
     + count_lines is_report (stdout c)
     = count_lines is_report (stdout (snd (call (guarded_report role) args kwargs c)))
       + count_lines is_sync (stdout c).
Proof.
  assert (H : call (guarded_report role) args kwargs c = (Raise TypeError, c)
   \/ call (guarded_report role) args kwargs c
      = (Ok VNone,
         printed c [PermissionDenied (dict_get kwargs "user_role" (VStr "Guest"))
                      "report_production"])
   \/ exists order_id quantity,
        call (guarded_report role) args kwargs c
        = (Ok (VDict [("order_id", order_id); ("status", VStr "completed")]),
           printed c [MesReport order_id quantity; ErpSync order_id;
                      ErpSyncTime (clock c)])).
  { unfold guarded_report. rewrite require_permission_unfold.
    pose proof (py_le_cases (dict_get kwargs "user_role" (VStr "Guest")) role) as L.
    destruct (as_int (dict_get kwargs "user_role" (VStr "Guest"))) as [z|];
      rewrite L.
    - destruct (z <=? UserRole_value role)%Z.
      + right. left. reflexivity.
      + destruct (synced_report_outcomes args kwargs c) as [E | E].
        * left. exact E.
        * right. right. exact E.
    - left. reflexivity. }
  split; [exact H|].
  destruct H as [E | [E | [oid [q E]]]]; rewrite E; cbn [snd printed stdout].
  - lia.
  - rewrite !count_lines_app. cbn. lia.
  - rewrite !count_lines_app. cbn. lia.
Qed.

(** X3.  The guard on values without an ordering against the role.  A
    [user_role] given as a string (such as ["ADMIN"]), as [None] or as a
    record makes the call raise [TypeError] before anything is printed or
    called.  A [user_role] given as an [int] or as a member of
    [UserRole] is refused when its value is at most the required role's
    value and is let through otherwise, so a plain [int] above that
    value passes. *)
Theorem guard_raises_on_unordered_role (role : UserRole) (user_role : PyVal)
  (func : PyFunc) (args : list PyVal) (kwargs : list (string * PyVal)) (c : Console) :
  dict_find kwargs "user_role" = Some user_role ->
  (user_role = VNone
   \/ (exists s, user_role = VStr s)
   \/ (exists items, user_role = VDict items) ->
     call (require_permission (VRole role) func) args kwargs c = (Raise TypeError, c))
  /\ (forall z,
        user_role = VInt z \/ (exists r, user_role = VRole r /\ z = UserRole_value r) ->
        (z <= UserRole_value role)%Z ->
        call (require_permission (VRole role) func) args kwargs c
        = (Ok VNone, printed c [PermissionDenied user_role (__name__ func)]))
  /\ (forall z,
        user_role = VInt z \/ (exists r, user_role = VRole r /\ z = UserRole_value r) ->
        (UserRole_value role < z)%Z ->
        call (require_permission (VRole role) func) args kwargs c
        = call func args kwargs c).
Proof.
  intros Hfind.
  pose proof (require_permission_unfold (VRole role) func args kwargs c) as E.
  unfold dict_get in E. rewrite Hfind in E.
  pose proof (py_le_cases user_role role) as L.
  assert (Hint : forall z,
             user_role = VInt z \/ (exists r, user_role = VRole r /\ z = UserRole_value r) ->
             as_int user_role = Some z).
  { intros z [-> | [r [-> ->]]]; reflexivity. }
  split; [|split].
  - intros Hkind.
    assert (Hnone : as_int user_role = None).
    { destruct Hkind as [-> | [[s ->] | [items ->]]]; reflexivity. }
    rewrite Hnone in L. rewrite L in E. exact E.
  - intros z Hz Hle. rewrite (Hint z Hz) in L. rewrite L in E.
    apply Z.leb_le in Hle. rewrite Hle in E. exact E.
  - intros z Hz Hlt. rewrite (Hint z Hz) in L. rewrite L in E.
    apply Z.leb_gt in Hlt. rewrite Hlt in E. exact E.
Qed.

(** X4.  With the role passed by keyword alone, the guard comes before
    the binding of the arguments: a caller at or below [OPERATOR] is
    refused with [None] whatever the positional arguments are, while a
    caller above [OPERATOR] gets [TypeError], with nothing printed,
    unless there are exactly two positional arguments. *)
Theorem report_production_arity (caller : UserRole) (args : list PyVal) (c : Console) :
  ((UserRole_value caller <= UserRole_value OPERATOR)%Z ->
     call report_production args [("user_role", VRole caller)] c
     = (Ok VNone, printed c [PermissionDenied (VRole caller) "report_production"]))
  /\ ((UserRole_value OPERATOR < UserRole_value caller)%Z ->
      List.length args <> 2 ->
      call report_production args [("user_role", VRole caller)] c = (Raise TypeError, c))
  /\ ((UserRole_value OPERATOR < UserRole_value caller)%Z ->
      forall order_id quantity, args = [order_id; quantity] ->
      call report_production args [("user_role", VRole caller)] c
      = (Ok (VDict [("order_id", order_id); ("status", VStr "completed")]),
         printed c [MesReport order_id quantity; ErpSync order_id;
                    ErpSyncTime (clock c)])).
Proof.
  assert (E : call report_production args [("user_role", VRole caller)] c =
              if (UserRole_value caller <=? UserRole_value OPERATOR)%Z
              then (Ok VNone, printed c [PermissionDenied (VRole caller) "report_production"])
              else call (sync_to_erp report_production_def) args
                     [("user_role", VRole caller)] c).
  { unfold report_production.
    apply (require_permission_roles caller OPERATOR). reflexivity. }
  split; [|split].
  - intros Hle. apply Z.leb_le in Hle. rewrite E, Hle. reflexivity.
  - intros Hlt Hlen. apply Z.leb_gt in Hlt. rewrite E, Hlt.
    rewrite sync_to_erp_unfold.
    destruct args as [|a [|b [|x rest]]]; try reflexivity.
    contradiction Hlen. reflexivity.
  - intros Hlt order_id quantity ->. apply Z.leb_gt in Hlt. rewrite E, Hlt.
    apply synced_report_runs.
Qed.

(** X5.  Two guards in a row are one guard with the greater of the two
    required roles: same outcome and same printed lines on every call,
    also on the calls that raise. *)
Theorem nested_guards_take_the_maximum (r1 r2 : UserRole) (func : PyFunc)
  (args : list PyVal) (kwargs : list (string * PyVal)) (c : Console) :
  call (require_permission (VRole r1) (require_permission (VRole r2) func)) args kwargs c
  = call (require_permission (VRole (UserRole_max r1 r2)) func) args kwargs c.
Proof.
  rewrite !require_permission_unfold.
  change (__name__ (require_permission (VRole r2) func)) with (__name__ func).
  pose proof (py_le_cases (dict_get kwargs "user_role" (VStr "Guest")) r1) as L1.
  pose proof (py_le_cases (dict_get kwargs "user_role" (VStr "Guest")) r2) as L2.
  pose proof (py_le_cases (dict_get kwargs "user_role" (VStr "Guest"))
                (UserRole_max r1 r2)) as L3.
  destruct (as_int (dict_get kwargs "user_role" (VStr "Guest"))) as [z|];
    rewrite L1, L3; [|reflexivity].
  rewrite L2. unfold UserRole_max.
  destruct (UserRole_value r1 <=? UserRole_value r2)%Z eqn:R;
    destruct (z <=? UserRole_value r1)%Z eqn:A;
    destruct (z <=? UserRole_value r2)%Z eqn:B; try reflexivity;
    rewrite ?Z.leb_le, ?Z.leb_gt in *; lia.
Qed.

End DecoratorMore.

(** * Further properties of the observer registry *)

Module RegistryMore.
Import Registry.
Import RegistryFacts.

Section Calls.

Context {Obj Env : Type}.
Variable Obj_eq_dec : forall a b : Obj, {a = b} + {a <> b}.
Variable isinstance_Observer : Obj -> bool.
Variable update : Obj -> string -> Status -> M (World Obj Env) unit.

Lemma with_observers_same (w : World Obj Env) :
  with_observers w (_observers (machine w)) = w.
Proof.
  destruct w as [[l mid st] out e]. reflexivity.
Qed.

Lemma contains_In (l : list Obj) (x : Obj) :
  contains Obj_eq_dec l x = true <-> In x l.
Proof.
  induction l as [|y l IH]; simpl.
  - split; [discriminate | contradiction].
  - destruct (Obj_eq_dec y x) as [->|N].
    + split; auto.
    + rewrite IH. split; [auto | intros [E|H]; [contradiction | exact H]].
Qed.

Lemma contains_not_In (l : list Obj) (x : Obj) :
  contains Obj_eq_dec l x = false <-> ~ In x l.
Proof.
  rewrite <- contains_In. destruct (contains Obj_eq_dec l x); split; congruence.
Qed.

Lemma list_remove_absent (l : list Obj) (x : Obj) :
  ~ In x l -> list_remove Obj_eq_dec l x = l.
Proof.
  induction l as [|y l IH]; simpl; intros H; [reflexivity|].
  destruct (Obj_eq_dec y x) as [->|N]; [exfalso; auto|].
  f_equal. apply IH. auto.
Qed.

Lemma list_remove_first (pre post : list Obj) (x : Obj) :
  ~ In x pre -> list_remove Obj_eq_dec (pre ++ x :: post) x = pre ++ post.
Proof.
  induction pre as [|y pre IH]; simpl; intros H.
  - destruct (Obj_eq_dec x x) as [_|N]; [reflexivity | contradiction].
  - destruct (Obj_eq_dec y x) as [->|N]; [exfalso; auto|].
    f_equal. apply IH. auto.
Qed.

Lemma list_remove_app_present (l tail : list Obj) (x : Obj) :
  In x l -> list_remove Obj_eq_dec (l ++ tail) x = list_remove Obj_eq_dec l x ++ tail.
Proof.
  induction l as [|y l IH]; simpl; intros H; [contradiction|].
  destruct (Obj_eq_dec y x) as [->|N]; [reflexivity|].
  destruct H as [E|H]; [contradiction|].
  simpl. f_equal. apply IH. exact H.
Qed.

Lemma list_remove_incl (l : list Obj) (x y : Obj) :
  In y (list_remove Obj_eq_dec l x) -> In y l.
Proof.
  induction l as [|z l IH]; simpl; [auto|].
  destruct (Obj_eq_dec z x) as [->|N]; simpl; [auto|].
  intros [E|H]; [left; exact E | right; apply IH; exact H].
Qed.

Lemma count_occ_list_remove_same (l : list Obj) (x : Obj) :
  In x l ->
  S (count_occ Obj_eq_dec (list_remove Obj_eq_dec l x) x) = count_occ Obj_eq_dec l x.
Proof.
  induction l as [|y l IH]; simpl; intros H; [contradiction|].
  destruct (Obj_eq_dec y x) as [->|N]; [reflexivity|].
  destruct H as [E|H]; [contradiction|].
  simpl. destruct (Obj_eq_dec y x) as [E|_]; [contradiction|].
  apply IH. exact H.
Qed.

Lemma count_occ_list_remove_other (l : list Obj) (x y : Obj) :
  y <> x ->
  count_occ Obj_eq_dec (list_remove Obj_eq_dec l x) y = count_occ Obj_eq_dec l y.
Proof.
  intros Hne. induction l as [|z l IH]; simpl; [reflexivity|].
  destruct (Obj_eq_dec z x) as [->|N].
  - destruct (Obj_eq_dec x y) as [E|_]; [congruence | reflexivity].
  - simpl. destruct (Obj_eq_dec z y); [f_equal|]; exact IH.
Qed.

Lemma remove_observer_unfold (w : World Obj Env) (o : Obj) :
  (In o (_observers (machine w)) ->
     remove_observer Obj_eq_dec o w
     = (Ok true, with_observers w (list_remove Obj_eq_dec (_observers (machine w)) o)))
  /\ (~ In o (_observers (machine w)) ->
     remove_observer Obj_eq_dec o w = (Ok false, w)).
Proof.
  unfold remove_observer. split; intros H.
  - apply contains_In in H. rewrite H. reflexivity.
  - apply contains_not_In in H. rewrite H. reflexivity.
Qed.

(** X6.  [remove_observer] of an observer that is not registered returns
    [False] and changes nothing; so after removing an observer that was
    registered once, removing it again returns [False] and leaves the
    state of the first removal. *)
Theorem remove_observer_absent (w : World Obj Env) (o : Obj) :
  (~ In o (_observers (machine w)) ->
     remove_observer Obj_eq_dec o w = (Ok false, w))
  /\ (count_occ Obj_eq_dec (_observers (machine w)) o = 1 ->
     fst (remove_observer Obj_eq_dec o w) = Ok true
     /\ remove_observer Obj_eq_dec o (snd (remove_observer Obj_eq_dec o w))
        = (Ok false, snd (remove_observer Obj_eq_dec o w))).
Proof.
  split; [apply remove_observer_unfold|].
  intros Hone.
  assert (Hin : In o (_observers (machine w))).
  { apply (count_occ_In Obj_eq_dec). lia. }
  destruct (remove_observer_unfold w o) as [Hyes _].
  rewrite (Hyes Hin). split; [reflexivity|].
  cbn [snd]. apply remove_observer_unfold.
  cbn [with_observers machine _observers].
  intros Hagain. apply (count_occ_In Obj_eq_dec) in Hagain.
  pose proof (count_occ_list_remove_same _ _ Hin). lia.
Qed.

(** X7.  [remove_observer] of a registered observer returns [True] and
    takes out its first entry only: the entries before and after it keep
    their order, the observer has one entry less, every other observer
    has as many entries as before, and the machine's identifier and
    status, the printed lines and the rest of the state are untouched. *)
Theorem remove_observer_first_entry (w : World Obj Env) (o : Obj)
  (before after : list Obj) :
  _observers (machine w) = before ++ o :: after ->
  ~ In o before ->
  remove_observer Obj_eq_dec o w = (Ok true, with_observers w (before ++ after))
  /\ S (count_occ Obj_eq_dec (before ++ after) o)
     = count_occ Obj_eq_dec (_observers (machine w)) o
  /\ forall p, p <> o ->
       count_occ Obj_eq_dec (before ++ after) p
       = count_occ Obj_eq_dec (_observers (machine w)) p.
Proof.
  intros Hobs Hfresh.
  assert (Hin : In o (_observers (machine w))).
  { rewrite Hobs. apply in_or_app. right. left. reflexivity. }
  assert (Hrem : list_remove Obj_eq_dec (_observers (machine w)) o = before ++ after).
  { rewrite Hobs. apply list_remove_first. exact Hfresh. }
  split; [|split].
  - destruct (remove_observer_unfold w o) as [Hyes _].
    rewrite (Hyes Hin), Hrem. reflexivity.
  - rewrite <- Hrem. apply count_occ_list_remove_same. exact Hin.
  - intros p Hp. rewrite <- Hrem. apply count_occ_list_remove_other. exact Hp.
Qed.

(** X8.  Registering an observer and removing it again.  When the
    observer was not registered before, the two calls return [True] and
    the state is back where it was.  When it was registered already, the
    removal takes the older entry, not the one just appended: the
    observer ends up at the end of the list. *)
Theorem register_then_remove (w : World Obj Env) (o : Obj) :
  isinstance_Observer o = true ->
  (~ In o (_observers (machine w)) ->
     remove_observer Obj_eq_dec o (snd (register_observer isinstance_Observer o w))
     = (Ok true, w))
  /\ (In o (_observers (machine w)) ->
     remove_observer Obj_eq_dec o (snd (register_observer isinstance_Observer o w))
     = (Ok true,
        with_observers w (list_remove Obj_eq_dec (_observers (machine w)) o ++ [o]))).
Proof.
  intros Hobs.
  destruct (register_observer_unfold isinstance_Observer w o) as [Hreg _].
  rewrite (Hreg Hobs). cbn [snd].
  destruct (remove_observer_unfold (appended w o) o) as [Hyes _].
  assert (Hin : In o (_observers (machine (appended w o)))).
  { cbn [appended machine _observers]. apply in_or_app. right. left. reflexivity. }
  rewrite (Hyes Hin).
  change (with_observers (appended w o)) with (with_observers w).
  change (_observers (machine (appended w o))) with (_observers (machine w) ++ [o]).
  split; intros H.
  - rewrite list_remove_first by exact H. rewrite app_nil_r.
    f_equal. apply with_observers_same.
  - rewrite list_remove_app_present by exact H. reflexivity.
Qed.

Lemma run_call_frame (c : RegistryCall Obj) (w : World Obj Env) :
  exists l,
    run_call Obj_eq_dec isinstance_Observer c w = with_observers w l
    /\ (forall o, In o l ->
          In o (_observers (machine w))
          \/ (c = CallRegister o /\ isinstance_Observer o = true)).
Proof.
  destruct c as [o|o]; cbn [run_call].
  - destruct (isinstance_Observer o) eqn:I.
    + destruct (register_observer_unfold isinstance_Observer w o) as [H _].
      rewrite (H I). exists (_observers (machine w) ++ [o]). split; [reflexivity|].
      intros p Hp. apply in_app_or in Hp. destruct Hp as [Hp | [<- | []]]; auto.
    + destruct (register_observer_unfold isinstance_Observer w o) as [_ H].
      rewrite (H I). exists (_observers (machine w)).
      split; [symmetry; apply with_observers_same | auto].
  - destruct (in_dec Obj_eq_dec o (_observers (machine w))) as [Hin|Hout].
    + destruct (remove_observer_unfold w o) as [H _]. rewrite (H Hin).
      eexists. split; [reflexivity|].
      intros p Hp. left. eapply list_remove_incl. exact Hp.
    + destruct (remove_observer_unfold w o) as [_ H]. rewrite (H Hout).
      exists (_observers (machine w)).
      split; [symmetry; apply with_observers_same | auto].
Qed.

(** X9.  Whatever sequence of [register_observer] and [remove_observer]
    calls is made, only the list of observers changes (the machine's
    identifier and status, the printed lines and the rest of the state
    stay), and a registry that held only [Observer] instances still
    holds only [Observer] instances. *)
Theorem registry_calls_keep_observers_only
  (calls : list (RegistryCall Obj)) (w : World Obj Env) :
  Forall (fun o => isinstance_Observer o = true) (_observers (machine w)) ->
  run_calls Obj_eq_dec isinstance_Observer calls w
  = with_observers w
      (_observers (machine (run_calls Obj_eq_dec isinstance_Observer calls w)))
  /\ Forall (fun o => isinstance_Observer o = true)
       (_observers (machine (run_calls Obj_eq_dec isinstance_Observer calls w))).
Proof.
  revert w. unfold run_calls.
  induction calls as [|c calls IH]; intros w Hall; cbn [fold_left].
  - split; [symmetry; apply with_observers_same | exact Hall].
  - destruct (run_call_frame c w) as [l [Hrun Hl]].
    assert (Hall' : Forall (fun o => isinstance_Observer o = true)
                      (_observers (machine (run_call Obj_eq_dec isinstance_Observer c w)))).
    { rewrite Hrun. cbn [with_observers machine _observers].
      apply Forall_forall. intros o Ho.
      destruct (Hl o Ho) as [Hold | [_ Hnew]]; [|exact Hnew].
      rewrite Forall_forall in Hall. apply Hall. exact Hold. }
    destruct (IH _ Hall') as [Hframe Hkeep].
    split; [|exact Hkeep].
    rewrite Hframe at 1. rewrite Hrun. reflexivity.
Qed.

(** X10.  [Observer.subscribe] and [Observer.unsubscribe] answer [False],
    and do nothing, only when handed something that is no [Observable].
    Handed the machine they answer [True] whatever the registry did:
    [unsubscribe] of an observer that is not registered returns [True]
    and leaves the state as it was, and [subscribe] returns [True] and
    appends the observer also when it is registered already. *)
Theorem subscribe_answers_ignore_registry (w : World Obj Env) (self : Obj) :
  Observer_subscribe isinstance_Observer self NotObservable w = (Ok false, w)
  /\ Observer_unsubscribe Obj_eq_dec self NotObservable w = (Ok false, w)
  /\ fst (Observer_subscribe isinstance_Observer self TheMachine w) = Ok true
  /\ fst (Observer_unsubscribe Obj_eq_dec self TheMachine w) = Ok true
  /\ (~ In self (_observers (machine w)) ->
      Observer_unsubscribe Obj_eq_dec self TheMachine w = (Ok true, w))
  /\ (isinstance_Observer self = true ->
      Observer_subscribe isinstance_Observer self TheMachine w
      = (Ok true, appended w self)).
Proof.
  split; [reflexivity|]. split; [reflexivity|].
  cbn [Observer_subscribe Observer_unsubscribe]. unfold subscribe, unsubscribe, bind.
  split; [|split; [|split]].
  - unfold register_observer. destruct (negb (isinstance_Observer self)); reflexivity.
  - unfold remove_observer.
    destruct (negb (contains Obj_eq_dec (_observers (machine w)) self)); reflexivity.
  - intros Hout. destruct (remove_observer_unfold w self) as [_ H].
    rewrite (H Hout). reflexivity.
  - intros Hobs. destruct (register_observer_unfold isinstance_Observer w self) as [H _].
    rewrite (H Hobs). reflexivity.
Qed.

Lemma Forall_list_remove (P : Obj -> Prop) (l : list Obj) (x : Obj) :
  Forall P l -> Forall P (list_remove Obj_eq_dec l x).
Proof.
  intros H. apply Forall_forall. intros y Hy.
  rewrite Forall_forall in H. apply H. eapply list_remove_incl. exact Hy.
Qed.

Lemma list_remove_length (l : list Obj) (x : Obj) :
  List.length (list_remove Obj_eq_dec l x) <= List.length l.
Proof.
  induction l as [|y l IH]; simpl; [lia|].
  destruct (Obj_eq_dec y x); simpl; lia.
Qed.


(** X11.  Unregistering stops the notifications, one entry at a time:
    after [remove_observer] of a registered observer, the next broadcast
    (over quiet observers) calls [update] on the remaining entries in
    their order, and the state it leaves is the one these calls leave,
    one after the other; the removed observer is called once less than
    it was registered (not at all when it was registered once) and every
    other observer as often as before. *)
Theorem removed_observer_is_not_notified
  (w : World Obj Env) (o : Obj) (status : Status) (fuel : nat) :
  In o (_observers (machine w)) ->
  Forall (quiet update) (_observers (machine w)) ->
  List.length (_observers (machine w)) <= fuel ->
  exists w1 ds w2,
    remove_observer Obj_eq_dec o w = (Ok true, w1)
    /\ set_status update fuel status w1 = Some (ds, (Ok tt, w2))
    /\ snapshot_broadcast update (list_remove Obj_eq_dec (_observers (machine w)) o)
         (machine_id (machine w)) status (committed w1 status) = (Ok tt, w2)
    /\ map receiver ds = list_remove Obj_eq_dec (_observers (machine w)) o
    /\ S (received Obj_eq_dec ds o) = count_occ Obj_eq_dec (_observers (machine w)) o
    /\ (forall p, p <> o ->
          received Obj_eq_dec ds p = count_occ Obj_eq_dec (_observers (machine w)) p).
Proof.
  intros Hin Hq Hfuel.
  destruct (remove_observer_unfold w o) as [Hrem _]. specialize (Hrem Hin).
  set (l := list_remove Obj_eq_dec (_observers (machine w)) o) in *.
  set (w1 := with_observers w l) in *.
  assert (Hq1 : Forall (quiet update) (_observers (machine w1)))
    by (apply Forall_list_remove; exact Hq).
  assert (Hfuel1 : List.length (_observers (machine w1)) < fuel).
  { subst w1. cbn [with_observers machine _observers]. subst l.
    assert (S (List.length (list_remove Obj_eq_dec (_observers (machine w)) o))
            = List.length (_observers (machine w))); [|lia].
    clear - Hin. induction (_observers (machine w)) as [|y t IH]; simpl in *;
      [contradiction|].
    destruct (Obj_eq_dec y o) as [->|N]; [reflexivity|].
    destruct Hin as [E|H]; [contradiction|]. simpl. f_equal. apply IH. exact H. }
  destruct (set_status_quiet_snapshot update w1 status fuel Hq1 Hfuel1)
    as [Hrun [Hok _]].
  change (_observers (machine w1)) with l in Hrun, Hok.
  change (machine_id (machine w1)) with (machine_id (machine w)) in Hrun, Hok.
  destruct (snapshot_broadcast update l (machine_id (machine w)) status
              (committed w1 status)) as [r2 w2] eqn:S2.
  cbn [fst] in Hok. subst r2.
  exists w1. eexists. exists w2.
  split; [exact Hrem|]. split; [exact Hrun|].
  split; [first [exact S2 | reflexivity]|].
  unfold received. rewrite map_map. cbn [receiver fst]. rewrite map_id.
  split; [reflexivity|]. split.
  - apply count_occ_list_remove_same. exact Hin.
  - intros p Hp. apply count_occ_list_remove_other. exact Hp.
Qed.



Lemma subscribe_then_return (self : Obj) (w : World Obj Env) :
  isinstance_Observer self = true ->
  (subscribe isinstance_Observer self ;;; ret tt)%py w = (Ok tt, appended w self).
Proof.
  intros H. unfold subscribe, bind, ret.
  destruct (register_observer_unfold isinstance_Observer w self) as [E _].
  rewrite (E H). reflexivity.
Qed.

Lemma skipn_head (l : list Obj) (i : nat) (o : Obj) (t : list Obj) :
  skipn i l = o :: t -> nth_error l i = Some o /\ skipn (S i) l = t.
Proof.
  revert l. induction i as [|i IH]; intros l H.
  - destruct l; simpl in H; [discriminate|]. injection H as -> ->. split; reflexivity.
  - destruct l as [|x l]; simpl in H; [discriminate|]. apply IH. exact H.
Qed.

(** The loop once a self-subscribing observer lies ahead of the index,
    with only quiet observers besides it: no amount of fuel is enough. *)
Lemma notify_from_with_joiner (joiner : Obj) :
  isinstance_Observer joiner = true ->
  (forall mid st w0,
      update joiner mid st w0 = (subscribe isinstance_Observer joiner ;;; ret tt)%py w0) ->
  forall (fuel i : nat) (w : World Obj Env),
    In joiner (skipn i (_observers (machine w))) ->
    (forall o, In o (skipn i (_observers (machine w))) ->
               o = joiner \/ quiet update o) ->
    notify_from update fuel i w = None.
Proof.
  intros Hobs Hjoin.
  induction fuel as [|fuel IH]; intros i w Hahead Hrest; [reflexivity|].
  cbn [notify_from].
  destruct (skipn i (_observers (machine w))) as [|o t] eqn:Hskip; [contradiction|].
  destruct (skipn_head _ _ _ _ Hskip) as [Hnth Htail].
  rewrite Hnth.
  destruct (Obj_eq_dec o joiner) as [->|Hne].
  - rewrite Hjoin, subscribe_then_return by exact Hobs.
    assert (Hlen : S i <= List.length (_observers (machine w))).
    { apply nth_error_Some. rewrite Hnth. discriminate. }
    assert (Hnew : skipn (S i) (_observers (machine (appended w joiner)))
                   = t ++ [joiner]).
    { cbn [appended machine _observers]. rewrite skipn_app, Htail.
      replace (S i - List.length (_observers (machine w))) with 0 by lia.
      reflexivity. }
    rewrite (IH (S i) (appended w joiner)); [reflexivity | | ].
    + rewrite Hnew. apply in_or_app. right. left. reflexivity.
    + rewrite Hnew. intros p Hp. apply in_app_or in Hp.
      destruct Hp as [Hp | [<- | []]]; [|left; reflexivity].
      apply Hrest. right. exact Hp.
  - destruct (Hrest o (or_introl eq_refl)) as [E | Hq]; [contradiction|].
    destruct (Hq (machine_id (machine w)) (_status (machine w)) w) as [w' [Hu Hm]].
    rewrite Hu.
    rewrite (IH (S i) w'); [reflexivity | | ].
    + rewrite Hm, Htail. destruct Hahead as [E | Hin]; [contradiction | exact Hin].
    + rewrite Hm, Htail. intros p Hp. apply Hrest. right. exact Hp.
Qed.

(** X13.  An observer that subscribes itself again from inside its
    [update] keeps the broadcast from ever ending: the loop reaches the
    entry it has just appended, which appends another.  With such an
    observer registered among quiet ones, [set_status] does not return,
    whatever the fuel. *)
Theorem self_registration_never_ends
  (w : World Obj Env) (status : Status) (joiner : Obj) :
  isinstance_Observer joiner = true ->
  (forall mid st w0,
      update joiner mid st w0 = (subscribe isinstance_Observer joiner ;;; ret tt)%py w0) ->
  In joiner (_observers (machine w)) ->
  (forall o, In o (_observers (machine w)) -> o = joiner \/ quiet update o) ->
  forall fuel, set_status update fuel status w = None.
Proof.
  intros Hobs Hjoin Hin Hrest fuel.
  rewrite set_status_unfold. unfold notify_observers.
  apply (notify_from_with_joiner joiner Hobs Hjoin); assumption.
Qed.

End Calls.

End RegistryMore.

(** * What the module's own observers print *)

Module PlantMore.
Import Registry.
Import Plant.

Lemma printed_nothing (w : World) : printed w [] = w.
Proof.
  destruct w as [m out e]. unfold printed. cbn. now rewrite app_nil_r.
Qed.

Lemma printed_twice (w : World) (xs ys : list Line) :
  printed (printed w xs) ys = printed w (xs ++ ys).
Proof.
  unfold printed. cbn. now rewrite app_assoc.
Qed.

(** One [update] of a shipped observer: it returns after printing its
    lines, and that is all it does. *)
Lemma shipped_update (o : Obj) (mid : string) (st : Status) (w : World) :
  shipped o = true ->
  update o mid st w = (Ok tt, printed w (update_lines mid st o)).
Proof.
  destruct o; try discriminate; intros _; cbn [update update_lines].
  - destruct (Status_eqb st FAULT); [reflexivity|].
    rewrite printed_nothing. reflexivity.
  - reflexivity.
Qed.

Lemma notify_from_shipped (rest : list Obj) :
  forall (seen : list Obj) (fuel : nat) (w : World),
    forallb shipped rest = true ->
    _observers (machine w) = seen ++ rest ->
    List.length rest < fuel ->
    notify_from update fuel (List.length seen) w
    = Some (deliveries_to (machine w) rest,
            (Ok tt,
             printed w (flat_map (update_lines (machine_id (machine w))
                                    (_status (machine w))) rest))).
Proof.
  induction rest as [|o rest IH]; intros seen fuel w Hall Hobs Hfuel.
  - destruct fuel as [|fuel]; [inversion Hfuel|]. cbn [notify_from].
    rewrite Hobs, app_nil_r, RegistryFacts.nth_error_at_end.
    cbn [flat_map deliveries_to map]. rewrite printed_nothing. reflexivity.
  - destruct fuel as [|fuel]; [inversion Hfuel|]. cbn [notify_from].
    cbn [forallb] in Hall. apply andb_prop in Hall. destruct Hall as [Ho Hall].
    rewrite Hobs, RegistryFacts.nth_error_after.
    rewrite (shipped_update o _ _ w Ho).
    replace (S (List.length seen)) with (List.length (seen ++ [o]))
      by (rewrite length_app; simpl; lia).
    rewrite (IH (seen ++ [o]) fuel); [ | exact Hall | | simpl in Hfuel; lia].
    + cbn [printed machine flat_map deliveries_to map].
      rewrite printed_twice. reflexivity.
    + cbn [printed machine]. rewrite Hobs, <- app_assoc. reflexivity.
Qed.

(** X14.  A broadcast on a machine whose observers are all of the two
    shipped classes returns normally and prints, after what was printed
    before, the status-change line and then the lines of the observers in
    registration order: every dashboard one line with the new status,
    every maintenance engineer one alert when the new status is [FAULT]
    and nothing otherwise.  Only the status of the machine changes. *)
Theorem shipped_broadcast_output (w : World) (status : Status) (fuel : nat) :
  forallb shipped (_observers (machine w)) = true ->
  List.length (_observers (machine w)) < fuel ->
  set_status fuel status w
  = Some (map (fun o => (o, machine_id (machine w), status)) (_observers (machine w)),
          (Ok tt,
           mkWorld
             (mkMachine (_observers (machine w)) (machine_id (machine w)) status)
             (stdout w
              ++ StatusChange (machine_id (machine w)) (Status_value status)
              :: flat_map (update_lines (machine_id (machine w)) status)
                   (_observers (machine w)))
             (env w)))
  /\ (status <> FAULT ->
      forall l, In l (flat_map (update_lines (machine_id (machine w)) status)
                        (_observers (machine w))) ->
                l = DashboardUpdate (machine_id (machine w)) (Status_value status))
  /\ (status = FAULT ->
      List.length (flat_map (update_lines (machine_id (machine w)) status)
                     (_observers (machine w)))
      = List.length (_observers (machine w))).
Proof.
  intros Hall Hfuel. split; [|split].
  - unfold set_status. rewrite RegistryFacts.set_status_unfold.
    unfold notify_observers.
    pose proof (notify_from_shipped (_observers (machine w)) [] fuel
                  (committed w status) Hall eq_refl Hfuel) as Hrun.
    cbn [List.length] in Hrun. rewrite Hrun.
    unfold printed, committed, deliveries_to.
    cbn [machine machine_id _status _observers stdout env].
    rewrite <- app_assoc. reflexivity.
  - intros Hst l Hin. apply in_flat_map in Hin. destruct Hin as [o [Ho Hl]].
    rewrite forallb_forall in Hall. specialize (Hall o Ho).
    destruct o; try discriminate; cbn [update_lines] in Hl.
    + destruct status; cbn in Hl; solve [contradiction | congruence].
    + destruct Hl as [E | []]. symmetry. exact E.
  - intros ->. clear Hfuel.
    induction (_observers (machine w)) as [|o l IH]; [reflexivity|].
    cbn [forallb] in Hall. apply andb_prop in Hall. destruct Hall as [Ho Hall].
    cbn [flat_map]. rewrite length_app, (IH Hall).
    destruct o; try discriminate; reflexivity.
Qed.

End PlantMore.

(** * The further properties at concrete inputs *)

Module MoreInstances.
Import Registry.

(** X3 with the role given as the string ["ADMIN"]: the call raises. *)
Lemma guard_raises_on_unordered_role_witness :
  Decorator.dict_find [("user_role", Decorator.VStr "ADMIN")] "user_role"
    = Some (Decorator.VStr "ADMIN")
  /\ Decorator.call Decorator.report_production
       [Decorator.VStr "ORD-002"; Decorator.VInt 500]
       [("user_role", Decorator.VStr "ADMIN")] (Decorator.mkConsole [] 0)
     = (Raise TypeError, Decorator.mkConsole [] 0).
Proof.
  split; [reflexivity|].
  exact (proj1 (DecoratorMore.guard_raises_on_unordered_role Decorator.OPERATOR
                  (Decorator.VStr "ADMIN")
                  (Decorator.sync_to_erp Decorator.report_production_def)
                  [Decorator.VStr "ORD-002"; Decorator.VInt 500]
                  [("user_role", Decorator.VStr "ADMIN")]
                  (Decorator.mkConsole [] 0) eq_refl)
           (or_intror (or_introl (ex_intro _ "ADMIN" eq_refl)))).
Defined.

(** X4 with an [ADMIN] who leaves the quantity out. *)
Lemma report_production_arity_witness :
  (Decorator.UserRole_value Decorator.OPERATOR
   < Decorator.UserRole_value Decorator.ADMIN)%Z
  /\ List.length [Decorator.VStr "ORD-002"] <> 2
  /\ Decorator.call Decorator.report_production [Decorator.VStr "ORD-002"]
       [("user_role", Decorator.VRole Decorator.ADMIN)] (Decorator.mkConsole [] 0)
     = (Raise TypeError, Decorator.mkConsole [] 0).
Proof.
  split; [reflexivity|]. split; [discriminate|].
  exact (proj1 (proj2 (DecoratorMore.report_production_arity Decorator.ADMIN
                         [Decorator.VStr "ORD-002"] (Decorator.mkConsole [] 0)))
           eq_refl (fun E => O_S 0 (f_equal pred E))).
Defined.

Lemma leaver_not_in_main_setup :
  ~ In (Plant.Leaver 3) (_observers (machine Plant.main_setup)).
Proof.
  intros [E | [E | []]]; discriminate E.
Defined.

(** X6 in the state [main] sets up, with an observer that never
    registered. *)
Lemma remove_observer_absent_witness :
  ~ In (Plant.Leaver 3) (_observers (machine Plant.main_setup))
  /\ remove_observer Plant.Obj_eq_dec (Plant.Leaver 3) Plant.main_setup
     = (Ok false, Plant.main_setup).
Proof.
  split; [exact leaver_not_in_main_setup|].
  exact (proj1 (RegistryMore.remove_observer_absent Plant.Obj_eq_dec
                  Plant.main_setup (Plant.Leaver 3)) leaver_not_in_main_setup).
Defined.

Lemma dashboard_not_before :
  ~ In Plant.dashboard [Plant.engineer].
Proof.
  intros [E | []]; discriminate E.
Defined.

(** X7 in the state [main] sets up: the dashboard goes, the engineer
    stays. *)
Lemma remove_observer_first_entry_witness :
  _observers (machine Plant.main_setup) = [Plant.engineer] ++ Plant.dashboard :: []
  /\ ~ In Plant.dashboard [Plant.engineer]
  /\ remove_observer Plant.Obj_eq_dec Plant.dashboard Plant.main_setup
     = (Ok true, with_observers Plant.main_setup ([Plant.engineer] ++ [])).
Proof.
  split; [reflexivity|]. split; [exact dashboard_not_before|].
  exact (proj1 (RegistryMore.remove_observer_first_entry Plant.Obj_eq_dec
                  Plant.main_setup Plant.dashboard [Plant.engineer] []
                  eq_refl dashboard_not_before)).
Defined.

(** X8 on a new machine: the engineer comes and goes. *)
Lemma register_then_remove_witness :
  Plant.isinstance_Observer Plant.engineer = true
  /\ remove_observer Plant.Obj_eq_dec Plant.engineer
       (snd (register_observer Plant.isinstance_Observer Plant.engineer
               (Plant.new_machine "CNC-001")))
     = (Ok true, Plant.new_machine "CNC-001").
Proof.
  split; [reflexivity|].
  exact (proj1 (RegistryMore.register_then_remove Plant.Obj_eq_dec
                  Plant.isinstance_Observer (Plant.new_machine "CNC-001")
                  Plant.engineer eq_refl) (fun H => H)).
Defined.

(** X9 on a new machine, with a call that tries to register an object
    that is no [Observer]. *)
Lemma registry_calls_keep_observers_only_witness :
  Forall (fun o => Plant.isinstance_Observer o = true)
    (_observers (machine (Plant.new_machine "CNC-001")))
  /\ Forall (fun o => Plant.isinstance_Observer o = true)
       (_observers
          (machine
             (run_calls Plant.Obj_eq_dec Plant.isinstance_Observer
                (CallRegister (Plant.Stranger 9) :: Plant.shuffle_calls)
                (Plant.new_machine "CNC-001")))).
Proof.
  split; [constructor|].
  exact (proj2 (RegistryMore.registry_calls_keep_observers_only Plant.Obj_eq_dec
                  Plant.isinstance_Observer
                  (CallRegister (Plant.Stranger 9) :: Plant.shuffle_calls)
                  (Plant.new_machine "CNC-001") (Forall_nil _))).
Defined.

Lemma engineer_and_dashboard_quiet :
  Forall (quiet Plant.update) (_observers (machine Plant.main_setup)).
Proof.
  repeat constructor.
  - apply PlantFacts.MaintenanceEngineer_quiet.
  - apply PlantFacts.ProductionDashboard_quiet.
Defined.

(** X11 in the state [main] sets up: once the engineer is removed, a
    [FAULT] goes to the dashboard alone; the dashboard prints its line
    and no alert is printed. *)
Lemma removed_observer_is_not_notified_witness :
  In Plant.engineer (_observers (machine Plant.main_setup))
  /\ (exists w1 ds w2,
       remove_observer Plant.Obj_eq_dec Plant.engineer Plant.main_setup = (Ok true, w1)
       /\ set_status Plant.update 2 FAULT w1 = Some (ds, (Ok tt, w2))
       /\ snapshot_broadcast Plant.update [Plant.dashboard] "CNC-001" FAULT
            (committed w1 FAULT) = (Ok tt, w2)
       /\ map receiver ds = [Plant.dashboard]
       /\ S (received Plant.Obj_eq_dec ds Plant.engineer) = 1
       /\ (forall p, p <> Plant.engineer ->
             received Plant.Obj_eq_dec ds p
             = count_occ Plant.Obj_eq_dec [Plant.engineer; Plant.dashboard] p))
  /\ set_status Plant.update 2 FAULT
       (snd (remove_observer Plant.Obj_eq_dec Plant.engineer Plant.main_setup))
     = Some ([(Plant.dashboard, "CNC-001", FAULT)],
             (Ok tt,
              mkWorld (mkMachine [Plant.dashboard] "CNC-001" FAULT)
                [StatusChange "CNC-001" "fault"; DashboardUpdate "CNC-001" "fault"] tt)).
Proof.
  split; [left; reflexivity|]. split; [|reflexivity].
  exact (RegistryMore.removed_observer_is_not_notified Plant.Obj_eq_dec Plant.update
           Plant.main_setup Plant.engineer FAULT 2 (or_introl eq_refl)
           engineer_and_dashboard_quiet (le_n 2)).
Defined.



Lemma beside_the_joiner (o : Plant.Obj) :
  In o [Plant.dashboard; Plant.Joiner 4; Plant.engineer] ->
  o = Plant.Joiner 4 \/ quiet Plant.update o.
Proof.
  intros [<- | [<- | [<- | []]]].
  - right. apply PlantFacts.ProductionDashboard_quiet.
  - left. reflexivity.
  - right. apply PlantFacts.MaintenanceEngineer_quiet.
Defined.

(** X13 with a [Joiner] between the dashboard and the engineer: a hundred
    rounds of the loop are not enough. *)
Lemma self_registration_never_ends_witness :
  Plant.isinstance_Observer (Plant.Joiner 4) = true
  /\ In (Plant.Joiner 4) [Plant.dashboard; Plant.Joiner 4; Plant.engineer]
  /\ set_status Plant.update 100 RUNNING
       (mkWorld (mkMachine [Plant.dashboard; Plant.Joiner 4; Plant.engineer]
                   "CNC-001" IDLE) [] tt)
     = None.
Proof.
  split; [reflexivity|]. split; [right; left; reflexivity|].
  exact (RegistryMore.self_registration_never_ends Plant.Obj_eq_dec
           Plant.isinstance_Observer Plant.update
           (mkWorld (mkMachine [Plant.dashboard; Plant.Joiner 4; Plant.engineer]
                       "CNC-001" IDLE) [] tt)
           RUNNING (Plant.Joiner 4) eq_refl (fun _ _ _ => eq_refl)
           (or_intror (or_introl eq_refl)) beside_the_joiner 100).
Defined.

(** X14 at [main]'s second broadcast: a [FAULT] prints the status change,
    the engineer's alert and the dashboard's line. *)
Lemma shipped_broadcast_output_witness :
  forallb Plant.shipped (_observers (machine Plant.main_setup)) = true
  /\ Plant.set_status 3 FAULT Plant.main_setup
     = Some ([(Plant.engineer, "CNC-001", FAULT); (Plant.dashboard, "CNC-001", FAULT)],
             (Ok tt,
              mkWorld (mkMachine [Plant.engineer; Plant.dashboard] "CNC-001" FAULT)
                [StatusChange "CNC-001" "fault"; MaintenanceAlert "CNC-001";
                 DashboardUpdate "CNC-001" "fault"] tt)).
Proof.
  split; [reflexivity|].
  exact (proj1 (PlantMore.shipped_broadcast_output Plant.main_setup FAULT 3
                  eq_refl (le_n 3))).
Defined.

End MoreInstances.
